(** * POSTECH GenAI OpenAI bridge: a model of [main.py]

    The bridge is one FastAPI module.  Its handlers are embedded here as
    functions in a small state-and-exception monad over a [World] that
    holds what the module shares between requests or reaches outside the
    process: the file registry [stored_files], the temporary directory,
    the sources of [uuid.uuid4()] and [time.time()], and the POSTECH
    backend together with the log of requests sent to it. *)

From Stdlib Require Import ZArith List Ascii String Lia.
From stdpp Require Import base option list strings gmap pretty.

Import ListNotations.
Set Warnings "-register-all".
Local Open Scope string_scope.
Local Open Scope Z_scope.
Local Open Scope list_scope.

(** ** Python data *)

(** What [json.loads] builds and the handlers pass around.  A [float] is
    kept by its [repr], which is what [str()] prints; a [dict] by its items
    in insertion order, the keys of a JSON object being strings. *)
Inductive value : Type :=
| VNone
| VBool (b : bool)
| VInt (z : Z)
| VFloat (repr : string)
| VStr (s : string)
| VList (l : list value)
| VDict (d : list (string * value)).

(** [type(v).__name__], as the interpreter's error texts name it. *)
Definition type_name (v : value) : string :=
  match v with
  | VNone => "NoneType"
  | VBool _ => "bool"
  | VInt _ => "int"
  | VFloat _ => "float"
  | VStr _ => "str"
  | VList _ => "list"
  | VDict _ => "dict"
  end.

(** [bool(v)]: the truth value tested by [if], [and], [or] and [not]. *)
Definition truthy (v : value) : bool :=
  match v with
  | VNone => false
  | VBool b => b
  | VInt z => negb (z =? 0)%Z
  | VFloat r => negb (String.eqb r "0.0" || String.eqb r "-0.0")
  | VStr s => negb (String.eqb s "")
  | VList l => match l with [] => false | _ => true end
  | VDict d => match d with [] => false | _ => true end
  end.

(** [d.get(key)] on the items of a dict: [None] when the key is absent. *)
Fixpoint dict_lookup (key : string) (d : list (string * value)) : option value :=
  match d with
  | [] => None
  | (k, v) :: rest => if String.eqb k key then Some v else dict_lookup key rest
  end.

(** [d.get(key, default)]. *)
Definition dict_get (d : list (string * value)) (key : string) (default : value) : value :=
  match dict_lookup key d with
  | Some v => v
  | None => default
  end.

(** An optional form field ([Optional[str] = Form(None)]) as a Python value. *)
Definition of_form (field : option string) : value :=
  match field with
  | Some s => VStr s
  | None => VNone
  end.

(** ** Strings *)

Definition LF : string := String (ascii_of_nat 10) EmptyString.

(** Case mapping of the ASCII letters; every other character is kept.
    [lower] stands for [str.lower] where the handler compares its result
    with the word [true], to whose letters no other character is
    lowercased.  [str.upper], which the transcoder applies to
    free-form roles, is the interpreter's and is taken from the
    environment ([str_upper] below); [ascii_upper] is the instance of it
    that is exact on ASCII text. *)
Definition upper_char (c : ascii) : ascii :=
  let n := nat_of_ascii c in
  if ((97 <=? n) && (n <=? 122))%nat then ascii_of_nat (n - 32) else c.

Definition lower_char (c : ascii) : ascii :=
  let n := nat_of_ascii c in
  if ((65 <=? n) && (n <=? 90))%nat then ascii_of_nat (n + 32) else c.

Fixpoint map_string (f : ascii -> ascii) (s : string) : string :=
  match s with
  | EmptyString => EmptyString
  | String c rest => String (f c) (map_string f rest)
  end.

Definition ascii_upper : string -> string := map_string upper_char.
Definition lower : string -> string := map_string lower_char.

(** [sep.join(lines)]. *)
Definition join (sep : string) (lines : list string) : string :=
  String.concat sep lines.

(** [substr in s]. *)
Fixpoint contains (substr s : string) : bool :=
  String.prefix substr s ||
  match s with
  | EmptyString => false
  | String _ rest => contains substr rest
  end.

(** ** Pydantic models *)

Record Message : Type := mkMessage { role : string; content : string }.

Record FileInfo : Type := mkFileInfo { fi_id : string; fi_name : string; fi_url : string }.

(** [f.model_dump()]. *)
Definition model_dump (f : FileInfo) : value :=
  VDict [("id", VStr (fi_id f)); ("name", VStr (fi_name f)); ("url", VStr (fi_url f))].

(** ** Exceptions *)

(** The [TypeError]s the handlers can meet: iterating a value that is not
    iterable, unpacking into [Message] a value that is not a mapping, hashing a
    list or a dict. *)
Inductive type_error : Type :=
| NotIterable (ty : string)
| NotAMapping (ty : string)
| Unhashable (ty : string).

(** What [requests] raises, all of it under [requests.RequestException]:
    no response (connection refused, timeout), [raise_for_status] on a 4xx
    or 5xx response, [response.json()] on a body that is not JSON. *)
Inductive request_error : Type :=
| TransportError (info : string)
| HTTPError (status_code : Z)
| InvalidJSON.

Inductive exn : Type :=
| HTTPException (status_code : Z) (detail : string)
| JSONDecodeError (doc : string)
| TypeError (e : type_error)
| ValidationError (fields : list string)
| AttributeError (ty attr : string)
| RequestException (e : request_error).

(** [except (json.JSONDecodeError, TypeError)]. *)
Definition is_decode_or_type_error (e : exn) : bool :=
  match e with
  | JSONDecodeError _ | TypeError _ => true
  | _ => false
  end.

(** [except requests.RequestException]. *)
Definition is_request_exception (e : exn) : bool :=
  match e with
  | RequestException _ => true
  | _ => false
  end.

(** ** The world of the process *)

(** An entry of [stored_files]. *)
Record StoredFile : Type :=
  mkStoredFile { sf_id : string; sf_name : option string; sf_path : string }.

(** A multipart upload: [file.filename] and what [await file.read()] gives. *)
Record UploadFile : Type :=
  mkUploadFile { filename : option string; file_bytes : list Byte.byte }.

(** The arguments of [requests.post]. *)
Record BackendRequest : Type :=
  mkBackendRequest {
      br_url : string;
      br_json : value;
      br_headers : list (string * string);
      br_timeout : Z }.

(** What comes back: nothing (then [requests.post] raises), or a response
    with its status code and what [response.json()] makes of its body
    ([None] when the body is not JSON). *)
Inductive BackendOutcome : Type :=
| NoResponse (info : string)
| Responded (status_code : Z) (body : option value).

Record World : Type :=
  mkWorld {
      stored_files : gmap string StoredFile;
      disk : gmap string (list Byte.byte);
      entropy : nat -> Z;
      drawn : nat;
      clock : nat -> Z;
      ticks : nat;
      backend : BackendRequest -> BackendOutcome;
      sent : list BackendRequest }.

(** The configuration read from the environment at import, and the
    library functions the module calls on text: [json.loads] ([None] when
    it raises [JSONDecodeError]), [json.dumps], [str(e)], and
    [str.upper]. *)
Record Env : Type :=
  mkEnv {
      POSTECH_BASE_URL : string;
      POSTECH_API_KEY : string;
      PROXY_HOST : string;
      json_loads : string -> option value;
      json_dumps : value -> string;
      str_exn : exn -> string;
      str_upper : string -> string }.

(** ** Computations: state and exceptions *)

Definition M (A : Type) : Type := World -> (exn + A) * World.

Definition ret {A : Type} (a : A) : M A := fun w => (inr a, w).

Definition raise {A : Type} (e : exn) : M A := fun w => (inl e, w).

Definition bind {A B : Type} (m : M A) (k : A -> M B) : M B :=
  fun w =>
    match m w with
    | (inl e, w') => (inl e, w')
    | (inr a, w') => k a w'
    end.

(** [try: body  except <classes> as e: handler]. *)
Definition try_except {A : Type} (body : M A) (classes : exn -> bool)
    (handler : exn -> M A) : M A :=
  fun w =>
    match body w with
    | (inl e, w') => if classes e then handler e w' else (inl e, w')
    | (inr a, w') => (inr a, w')
    end.

(** A pure step that may raise. *)
Definition lift {A : Type} (r : exn + A) : M A :=
  match r with
  | inl e => raise e
  | inr a => ret a
  end.

#[global] Instance M_ret : MRet M := @ret.
#[global] Instance M_bind : MBind M := fun A B k m => bind m k.

(** [for x in xs: f(x)], collecting the results; the first exception ends it. *)
Fixpoint for_each {A B : Type} (f : A -> exn + B) (xs : list A) : exn + list B :=
  match xs with
  | [] => inr []
  | x :: rest =>
      match f x with
      | inl e => inl e
      | inr y =>
          match for_each f rest with
          | inl e => inl e
          | inr ys => inr (y :: ys)
          end
      end
  end.

(** The HTTP status FastAPI answers with: 200 for a returned value, the
    status of an [HTTPException], 500 for any other exception. *)
Definition http_status {A : Type} (r : exn + A) : Z :=
  match r with
  | inr _ => 200
  | inl (HTTPException status _) => status
  | inl _ => 500
  end.

(** *** Primitives *)

(** [uuid.uuid4()]: the next 128-bit draw. *)
Definition uuid4 : M Z :=
  fun w =>
    (inr (entropy w (drawn w) mod 2 ^ 128),
     mkWorld (stored_files w) (disk w) (entropy w) (S (drawn w))
       (clock w) (ticks w) (backend w) (sent w)).

(** [int(time.time())]: the next reading of the clock. *)
Definition time_time : M Z :=
  fun w =>
    (inr (clock w (ticks w)),
     mkWorld (stored_files w) (disk w) (entropy w) (drawn w)
       (clock w) (S (ticks w)) (backend w) (sent w)).

(** [with open(path, "wb") as f: f.write(content)]. *)
Definition write_file (path : string) (content : list Byte.byte) : M unit :=
  fun w =>
    (inr tt,
     mkWorld (stored_files w) (<[path := content]> (disk w)) (entropy w) (drawn w)
       (clock w) (ticks w) (backend w) (sent w)).

(** [stored_files[file_id] = record]. *)
Definition register_file (file_id : string) (record : StoredFile) : M unit :=
  fun w =>
    (inr tt,
     mkWorld (<[file_id := record]> (stored_files w)) (disk w) (entropy w) (drawn w)
       (clock w) (ticks w) (backend w) (sent w)).

(** The entry of [file_id] in [stored_files], if it is in: a read. *)
Definition find_file (file_id : string) : M (option StoredFile) :=
  fun w => (inr (stored_files w !! file_id), w).

(** [requests.post(url, json=..., headers=..., timeout=...)]: the request
    goes out (it is logged in [sent]) and the backend's outcome comes back;
    no response raises. *)
Definition requests_post (req : BackendRequest) : M (Z * option value) :=
  fun w =>
    let w' := mkWorld (stored_files w) (disk w) (entropy w) (drawn w)
                (clock w) (ticks w) (backend w) (sent w ++ [req]) in
    match backend w req with
    | NoResponse info => (inl (RequestException (TransportError info)), w')
    | Responded status body => (inr (status, body), w')
    end.

(** [response.raise_for_status()]: [HTTPError] for 400..599. *)
Definition raise_for_status (status : Z) : M unit :=
  if (400 <=? status) && (status <? 600)
  then raise (RequestException (HTTPError status))
  else ret tt.

(** [response.json()]. *)
Definition response_json (body : option value) : M value :=
  match body with
  | Some data => ret data
  | None => raise (RequestException InvalidJSON)
  end.

(** [data.get(key, default)] on any value: only a dict has [get]. *)
Definition value_get (data : value) (key : string) (default : value) : exn + value :=
  match data with
  | VDict d => inr (dict_get d key default)
  | _ => inl (AttributeError (type_name data) "get")
  end.

(** ** Identifiers *)

Definition hex_digit (d : Z) : ascii :=
  match d with
  | 0 => "0" | 1 => "1" | 2 => "2" | 3 => "3" | 4 => "4" | 5 => "5"
  | 6 => "6" | 7 => "7" | 8 => "8" | 9 => "9" | 10 => "a" | 11 => "b"
  | 12 => "c" | 13 => "d" | 14 => "e" | _ => "f"
  end%char.

(** The [n] lowest hexadecimal digits of [z], the most significant first:
    ['%0nx' % z] for [0 <= z < 16 ^ n]. *)
Fixpoint hex_digits (n : nat) (z : Z) : string :=
  match n with
  | O => ""
  | S k => hex_digits k (z / 16) +:+ String (hex_digit (z mod 16)) ""
  end.

(** [u.hex], for the integer [u] of a UUID. *)
Definition uuid_hex (u : Z) : string := hex_digits 32 u.

(** [str(u)]: the five groups of [u.hex], hyphenated. *)
Definition uuid_str (u : Z) : string :=
  let hex := uuid_hex u in
  substring 0 8 hex +:+ "-" +:+ substring 8 4 hex +:+ "-" +:+ substring 12 4 hex
  +:+ "-" +:+ substring 16 4 hex +:+ "-" +:+ substring 20 12 hex.

Definition is_hex_char (c : ascii) : bool :=
  let n := nat_of_ascii c in
  (((48 <=? n) && (n <=? 57)) || ((97 <=? n) && (n <=? 102)))%nat.

Fixpoint all_chars (p : ascii -> bool) (s : string) : bool :=
  match s with
  | EmptyString => true
  | String c rest => p c && all_chars p rest
  end.

(** ** Configuration *)

Definition TMP_DIR : string := "tmp".

(** [str(TMP_DIR / name)]. *)
Definition tmp_path (name : string) : string := TMP_DIR +:+ "/" +:+ name.

Definition MODEL_ENDPOINTS : list (string * string) :=
  [("postech-gpt", "a1/gpt");
   ("postech-gemini", "a2/gemini");
   ("postech-claude", "a3/claude")].

Definition DEFAULT_MODEL : string := "postech-gpt".

(** [MODEL_ENDPOINTS.get(name)] for a [str]. *)
Fixpoint table_lookup (name : string) (table : list (string * string)) : option string :=
  match table with
  | [] => None
  | (k, v) :: rest => if String.eqb k name then Some v else table_lookup name rest
  end.

(** The values that can be hashed, hence looked up in a dict. *)
Inductive scalar : Type :=
| SNone
| SBool (b : bool)
| SInt (z : Z)
| SFloat (repr : string)
| SStr (s : string).

(** [hash(v)] succeeds on everything but a list or a dict. *)
Definition hash_key (v : value) : exn + scalar :=
  match v with
  | VNone => inr SNone
  | VBool b => inr (SBool b)
  | VInt z => inr (SInt z)
  | VFloat r => inr (SFloat r)
  | VStr s => inr (SStr s)
  | VList _ | VDict _ => inl (TypeError (Unhashable (type_name v)))
  end.

(** [MODEL_ENDPOINTS.get(k)] for a hashed key: the keys of the table are
    strings, and no other scalar equals a string. *)
Definition endpoint_of (k : scalar) : option string :=
  match k with
  | SStr name => table_lookup name MODEL_ENDPOINTS
  | _ => None
  end.

(** [str(k)], as an f-string formats it. *)
Definition str_scalar (k : scalar) : string :=
  match k with
  | SNone => "None"
  | SBool true => "True"
  | SBool false => "False"
  | SInt z => pretty z
  | SFloat r => r
  | SStr s => s
  end.

(** [repr] of a string free of quotes, backslashes and control characters,
    as the keys of [MODEL_ENDPOINTS] are. *)
Definition repr_plain (s : string) : string := "'" +:+ s +:+ "'".

(** [str(list(MODEL_ENDPOINTS.keys()))]. *)
Definition available_models : string :=
  "[" +:+ join ", " (map (fun kv => repr_plain (fst kv)) MODEL_ENDPOINTS) +:+ "]".

(** ** Building messages *)

(** [Message] applied to the unpacked [m] (the double-star call of the
    source): a [TypeError] unless [m] is a mapping, a pydantic
    [ValidationError] naming the fields that are missing or not strings
    (other keys are ignored). *)
Definition Message_unpack (m : value) : exn + Message :=
  match m with
  | VDict d =>
      match dict_lookup "role" d, dict_lookup "content" d with
      | Some (VStr r), Some (VStr c) => inr (mkMessage r c)
      | Some (VStr _), _ => inl (ValidationError ["content"])
      | _, Some (VStr _) => inl (ValidationError ["role"])
      | _, _ => inl (ValidationError ["role"; "content"])
      end
  | _ => inl (TypeError (NotAMapping (type_name m)))
  end.

(** [iter(v)]: the items of a list, the keys of a dict, the characters of a
    string; nothing else the decoder builds is iterable. *)
Definition iterate (v : value) : exn + list value :=
  match v with
  | VList l => inr l
  | VDict d => inr (map (fun kv => VStr (fst kv)) d)
  | VStr s => inr (map (fun c => VStr (String c "")) (list_ascii_of_string s))
  | _ => inl (TypeError (NotIterable (type_name v)))
  end.

(** The comprehension over the decoded messages: every item is unpacked
    into a [Message], in order. *)
Definition build_messages (v : value) : exn + list Message :=
  match iterate v with
  | inl e => inl e
  | inr items => for_each Message_unpack items
  end.

(** [a and b] and [a or b] on values. *)
Definition py_and (a b : value) : value := if truthy a then b else a.
Definition py_or (a b : value) : value := if truthy a then a else b.

(** ** Requests and responses *)

(** A request to [POST /v1/chat/completions]: its [content-type] header,
    the form fields FastAPI extracted (each [None] when not submitted),
    and its raw body, which [await request.json()] decodes. *)
Record Request : Type :=
  mkRequest {
      content_type_header : option string;
      form_model : option string;
      form_messages : option string;
      form_stream : option string;
      form_file : option UploadFile;
      body : string }.

(** What a handler returns: a dict that FastAPI serialises, a
    [StreamingResponse] over the generator [generate_stream_response]
    applied to its three arguments (not yet run), or a [FileResponse]. *)
Inductive Response : Type :=
| JSONResponse (content : value)
| StreamingResponse (reply model : value) (completion_id : string)
    (media_type : string) (headers : list (string * string))
| FileResponse (path : string) (filename : option string).

(** The bytes a [FileResponse] sends: the file at its path, read when the
    response goes out. *)
Definition served_bytes (r : Response) (w : World) : option (list Byte.byte) :=
  match r with
  | FileResponse path _ => disk w !! path
  | _ => None
  end.

(** The two JSON chunks of the synthetic stream. *)
Definition content_chunk (completion_id : string) (created : Z) (model reply : value) : value :=
  VDict [("id", VStr completion_id);
         ("object", VStr "chat.completion.chunk");
         ("created", VInt created);
         ("model", model);
         ("choices",
          VList [VDict [("index", VInt 0);
                        ("delta", VDict [("role", VStr "assistant"); ("content", reply)]);
                        ("finish_reason", VNone)]])].

Definition finish_chunk (completion_id : string) (created : Z) (model : value) : value :=
  VDict [("id", VStr completion_id);
         ("object", VStr "chat.completion.chunk");
         ("created", VInt created);
         ("model", model);
         ("choices",
          VList [VDict [("index", VInt 0);
                        ("delta", VDict []);
                        ("finish_reason", VStr "stop")]])].

(** The non-streaming completion object. *)
Definition completion (completion_id : string) (created : Z) (model reply : value) : value :=
  VDict [("id", VStr completion_id);
         ("object", VStr "chat.completion");
         ("created", VInt created);
         ("model", model);
         ("choices",
          VList [VDict [("index", VInt 0);
                        ("message", VDict [("role", VStr "assistant"); ("content", reply)]);
                        ("finish_reason", VStr "stop")]])].

Definition DONE_FRAME : string := "data: [DONE]" +:+ LF +:+ LF.

(** ** The handlers *)

Section Handlers.

Context (env : Env).

(** *** Message transcoding *)

(** One pass of the loop body: [lines.append(f"{role}: {msg.content}")]. *)
Definition append_line (lines : list string) (msg : Message) : list string :=
  let role := str_upper env (role msg) in
  lines ++ [role +:+ ": " +:+ content msg].

Definition convert_messages_to_prompt (messages : list Message) : string :=
  let lines := fold_left append_line messages [] in
  join LF lines.

(** The line one message contributes to the prompt. *)
Definition prompt_line (msg : Message) : string :=
  str_upper env (role msg) +:+ ": " +:+ content msg.

(** *** The endpoints *)

Definition list_models : M Response :=
  let models :=
    map (fun kv => VDict [("id", VStr (fst kv)); ("object", VStr "model");
                          ("owned_by", VStr "postech")]) MODEL_ENDPOINTS in
  mret (JSONResponse (VDict [("object", VStr "list"); ("data", VList models)])).

Definition upload_file (file : UploadFile) : M Response :=
  u ← uuid4;
  let file_id := uuid_str u in
  let file_path := tmp_path file_id in
  write_file file_path (file_bytes file);;
  register_file file_id (mkStoredFile file_id (filename file) file_path);;
  mret (JSONResponse
          (VDict [("id", VStr file_id);
                  ("name", of_form (filename file));
                  ("url", VStr (PROXY_HOST env +:+ "/files/" +:+ file_id))])).

Definition get_file (file_id : string) : M Response :=
  found ← find_file file_id;
  match found with
  | None => raise (HTTPException 404 "File not found")
  | Some file_info => mret (FileResponse (sf_path file_info) (sf_name file_info))
  end.

(** The JSON payload of the backend call. *)
Definition backend_payload (prompt : string) (files : option (list FileInfo)) : value :=
  VDict [("message", VStr prompt);
         ("stream", VBool false);
         ("files",
          match files with
          | Some (f :: fs) => VList (map model_dump (f :: fs))
          | _ => VList []
          end)].

(** The request [call_postech_api] posts: url, payload, headers, timeout. *)
Definition backend_call (endpoint prompt : string) (files : option (list FileInfo))
  : BackendRequest :=
  let url := POSTECH_BASE_URL env +:+ "/" +:+ endpoint in
  let payload := backend_payload prompt files in
  let headers := [("Content-Type", "application/json");
                  ("X-Api-Key", POSTECH_API_KEY env)] in
  mkBackendRequest url payload headers 120.

Definition call_postech_api (endpoint prompt : string) (files : option (list FileInfo))
  : M value :=
  response ← requests_post (backend_call endpoint prompt files);
  raise_for_status (fst response);;
  data ← response_json (snd response);
  lift (value_get data "replies" (VStr "")).

Definition save_uploaded_file (file : UploadFile) : M FileInfo :=
  u ← uuid4;
  let file_id := uuid_str u in
  let file_path := tmp_path file_id in
  write_file file_path (file_bytes file);;
  register_file file_id (mkStoredFile file_id (filename file) file_path);;
  mret (mkFileInfo file_id
          (match filename file with
           | Some name => if String.eqb name "" then "file" else name
           | None => "file"
           end)
          (PROXY_HOST env +:+ "/files/" +:+ file_id)).

(** The generator, run to its end: the frames it yields, in order. *)
Definition generate_stream_response (reply model : value) (completion_id : string)
  : M (list string) :=
  created ← time_time;
  let chunk := content_chunk completion_id created model reply in
  let frame1 := "data: " +:+ json_dumps env chunk +:+ LF +:+ LF in
  let finish := finish_chunk completion_id created model in
  let frame2 := "data: " +:+ json_dumps env finish +:+ LF +:+ LF in
  mret [frame1; frame2; DONE_FRAME].

(** [json.loads(text)] as a step that may raise. *)
Definition loads (text : string) : exn + value :=
  match json_loads env text with
  | Some v => inr v
  | None => inl (JSONDecodeError text)
  end.

(** [is_stream] of the multipart branch: [stream and stream.lower() == "true"]. *)
Definition stream_flag (stream : option string) : value :=
  match stream with
  | Some text => py_and (VStr text) (VBool (String.eqb (lower text) "true"))
  | None => VNone
  end.

(** The multipart branch of [chat_completions]: the model, the parsed
    messages and [is_stream]. *)
Definition parse_form (request : Request) : M (value * list Message * value) :=
  let messages := form_messages request in
  if negb (truthy (of_form messages))
  then raise (HTTPException 400 "messages field is required")
  else
    parsed_messages ←
      try_except
        (decoded ← lift (loads (default "" messages));
         lift (build_messages decoded))
        is_decode_or_type_error
        (fun e => raise (HTTPException 400 ("Invalid messages format: " +:+ str_exn env e)));
    let model := py_or (of_form (form_model request)) (VStr DEFAULT_MODEL) in
    let is_stream := stream_flag (form_stream request) in
    mret (model, parsed_messages, is_stream).

(** The JSON branch. *)
Definition parse_json (request : Request) : M (value * list Message * value) :=
  body ← lift (loads (body request));
  model ← lift (value_get body "model" (VStr DEFAULT_MODEL));
  messages ← lift (value_get body "messages" (VList []));
  parsed_messages ← lift (build_messages messages);
  is_stream ← lift (value_get body "stream" (VBool false));
  mret (model, parsed_messages, is_stream).

(** The test on the content type that chooses between the two. *)
Definition is_multipart (request : Request) : bool :=
  let content_type := default "" (content_type_header request) in
  contains "multipart/form-data" content_type.

Definition parse_request (request : Request) : M (value * list Message * value) :=
  if is_multipart request then parse_form request else parse_json request.

(** The file block of [chat_completions]: [files_for_api]. *)
Definition attach_file (request : Request) : M (list FileInfo) :=
  match form_file request with
  | Some file =>
      if truthy (of_form (filename file))
      then (file_info ← save_uploaded_file file; mret [file_info])
      else mret []
  | None => mret []
  end.

(** [f"chatcmpl-{u.hex[:12]}"]. *)
Definition completion_id_of (u : Z) : string :=
  "chatcmpl-" +:+ substring 0 12 (uuid_hex u).

Definition chat_completions (request : Request) : M Response :=
  parsed ← parse_request request;
  let '(model, parsed_messages, is_stream) := parsed in
  key ← lift (hash_key model);
  match endpoint_of key with
  | None =>
      raise (HTTPException 400
               ("Invalid model: " +:+ str_scalar key +:+ ". Available: "
                +:+ available_models))
  | Some endpoint =>
      files_for_api ← attach_file request;
      let prompt := convert_messages_to_prompt parsed_messages in
      reply ←
        try_except
          (call_postech_api endpoint prompt (Some files_for_api))
          is_request_exception
          (fun e => raise (HTTPException 502 ("POSTECH API error: " +:+ str_exn env e)));
      u ← uuid4;
      let completion_id := completion_id_of u in
      if truthy is_stream
      then mret (StreamingResponse reply model completion_id "text/event-stream"
                   [("Cache-Control", "no-cache"); ("Connection", "keep-alive")])
      else
        created ← time_time;
        mret (JSONResponse (completion completion_id created model reply))
  end.

End Handlers.

(** ** Reading responses *)

(** [v[key]] when [v] is a dict that has the key. *)
Definition field (key : string) (v : value) : option value :=
  match v with
  | VDict d => dict_lookup key d
  | _ => None
  end.

(** The choices of a chunk or of a completion object. *)
Definition choices (v : value) : list value :=
  match field "choices" v with
  | Some (VList cs) => cs
  | _ => []
  end.

(** The text a stream chunk adds to the reply: the [content] of the
    [delta] of each choice, where there is one and it is a string. *)
Definition delta_text (chunk : value) : string :=
  join ""
    (map (fun choice =>
            match field "delta" choice with
            | Some delta =>
                match field "content" delta with
                | Some (VStr text) => text
                | _ => ""
                end
            | None => ""
            end)
       (choices chunk)).

(** An event-stream record around a payload. *)
Definition sse_frame (payload : string) : string :=
  "data: " +:+ payload +:+ LF +:+ LF.

(** [s] without the prefix [p], when it starts with it. *)
Fixpoint strip_prefix (p s : string) : option string :=
  match p, s with
  | EmptyString, _ => Some s
  | String a p', String b s' => if Ascii.eqb a b then strip_prefix p' s' else None
  | String _ _, EmptyString => None
  end.

(** [s] without the blank line (two newlines) that ends it. *)
Fixpoint chop_blank_line (s : string) : option string :=
  match s with
  | EmptyString => None
  | String c rest =>
      if String.eqb s (LF +:+ LF) then Some ""
      else option_map (String c) (chop_blank_line rest)
  end.

(** The payload of an event-stream record. *)
Definition frame_payload (frame : string) : option string :=
  match strip_prefix "data: " frame with
  | Some rest => chop_blank_line rest
  | None => None
  end.

(** What a client that decodes the frames reads as the text of one frame:
    the delta text of the chunk its payload decodes to, nothing when the
    payload is no JSON (as the end-of-stream marker). *)
Definition frame_text (env : Env) (frame : string) : string :=
  match frame_payload frame with
  | Some payload =>
      match json_loads env payload with
      | Some chunk => delta_text chunk
      | None => ""
      end
  | None => ""
  end.

(** The text of a whole stream. *)
Definition stream_text (env : Env) (frames : list string) : string :=
  join "" (map (frame_text env) frames).

Definition is_streaming (r : Response) : bool :=
  match r with
  | StreamingResponse _ _ _ _ _ => true
  | _ => false
  end.

(** ** A sample environment

    Concrete instances of what the handlers take from outside, on which
    the statements below are evaluated. *)

Definition DQ : string := String (ascii_of_nat 34) "".

Definition quoted (s : string) : string := DQ +:+ s +:+ DQ.

(** [json.dumps] with its default separators, on values whose strings hold
    no character that needs escaping. *)
Fixpoint dumps_plain (v : value) : string :=
  match v with
  | VNone => "null"
  | VBool true => "true"
  | VBool false => "false"
  | VInt z => pretty z
  | VFloat r => r
  | VStr s => quoted s
  | VList l => "[" +:+ join ", " (map dumps_plain l) +:+ "]"
  | VDict d =>
      "{" +:+ join ", " (map (fun kv => match kv with
                                        | (k, x) => quoted k +:+ ": " +:+ dumps_plain x
                                        end) d) +:+ "}"
  end.

(** A decoder that knows finitely many texts and refuses every other. *)
Fixpoint decode_with (known : list (string * value)) (text : string) : option value :=
  match known with
  | [] => None
  | (t, v) :: rest => if String.eqb t text then Some v else decode_with rest text
  end.

(** The class name of an exception, standing for its text. *)
Definition class_name (e : exn) : string :=
  match e with
  | HTTPException _ _ => "HTTPException"
  | JSONDecodeError _ => "JSONDecodeError"
  | TypeError _ => "TypeError"
  | ValidationError _ => "ValidationError"
  | AttributeError _ _ => "AttributeError"
  | RequestException _ => "RequestException"
  end.

Definition hi_messages : value :=
  VList [VDict [("role", VStr "user"); ("content", VStr "hi")]].

Definition no_content_messages : value :=
  VList [VDict [("role", VStr "user")]].

(** Request texts, each with the value [json.loads] gives for it. *)
Definition hi_text : string := dumps_plain hi_messages.

Definition no_content_text : string := dumps_plain no_content_messages.

Definition empty_object_text : string := dumps_plain (VDict []).

Definition nope_five_body : string :=
  "{" +:+ quoted "model" +:+ ": " +:+ quoted "nope" +:+ ", "
  +:+ quoted "messages" +:+ ": 5}".

Definition claude_body : string :=
  "{" +:+ quoted "model" +:+ ": " +:+ quoted "postech-claude" +:+ "}".

Definition nope_body : string :=
  "{" +:+ quoted "model" +:+ ": " +:+ quoted "nope" +:+ "}".

Definition hi_body : string :=
  "{" +:+ quoted "messages" +:+ ": " +:+ hi_text +:+ "}".

Definition ok_chunk : value :=
  content_chunk "chatcmpl-0123456789ab" 1700000000 (VStr "postech-gpt") (VStr "ok").

Definition ok_finish_chunk : value :=
  finish_chunk "chatcmpl-0123456789ab" 1700000000 (VStr "postech-gpt").

Definition sample_texts : list (string * value) :=
  [(dumps_plain ok_chunk, ok_chunk);
   (dumps_plain ok_finish_chunk, ok_finish_chunk);
   (hi_text, hi_messages);
   (no_content_text, no_content_messages);
   (empty_object_text, VDict []);
   (nope_five_body, VDict [("model", VStr "nope"); ("messages", VInt 5)]);
   (claude_body, VDict [("model", VStr "postech-claude")]);
   (nope_body, VDict [("model", VStr "nope")]);
   (hi_body, VDict [("messages", hi_messages)])].

Definition sample_env : Env :=
  mkEnv "https://genai.postech.ac.kr/agent/api" "secret" "http://localhost:8080"
    (decode_with sample_texts) dumps_plain class_name ascii_upper.

(** A fresh process whose backend answers every request in the same way. *)
Definition fresh_world (answer : BackendOutcome) : World :=
  mkWorld ∅ ∅
    (fun n => 0x0123456789abcdef0123456789abcdef + Z.of_nat n) 0
    (fun n => 1700000000 + Z.of_nat n) 0
    (fun _ => answer) [].

Definition json_request (text : string) : Request :=
  mkRequest (Some "application/json") None None None None text.

Definition form_request (model messages stream : option string)
    (file : option UploadFile) : Request :=
  mkRequest (Some "multipart/form-data; boundary=x") model messages stream file "".

(** A process whose backend answers with a [reply] field. *)
Definition reply_world : World :=
  fresh_world (Responded 200 (Some (VDict [("reply", VStr "hi")]))).

(** A process whose backend answers with a [replies] field. *)
Definition replies_world : World :=
  fresh_world (Responded 200 (Some (VDict [("replies", VStr "hello")]))).

(** Sample requests to the chat-completions endpoint. *)
Definition hi_request : Request := json_request hi_body.

Definition claude_request : Request := json_request claude_body.

Definition nope_request : Request := json_request nope_body.

Definition nope_five_request : Request := json_request nope_five_body.

Definition hi_stream_form : Request :=
  form_request None (Some hi_text) (Some "TRUE") None.

Definition no_content_form : Request :=
  form_request None (Some no_content_text) None None.

Definition empty_object_form : Request :=
  form_request None (Some empty_object_text) None None.

Definition nope_without_messages_form : Request :=
  form_request (Some "nope") None None None.

Definition notes_file : UploadFile :=
  mkUploadFile (Some "notes.txt") [Byte.x68; Byte.x69; Byte.x0a].

(** ** Notions for the properties of the handlers *)

(** [item] is a JSON object that [Message] accepts as the message [m]:
    an object whose [role] and [content] are the strings of [m], in any
    order and among any other keys. *)
Definition is_message_object (item : value) (m : Message) : Prop :=
  exists d,
    item = VDict d
    /\ dict_lookup "role" d = Some (VStr (role m))
    /\ dict_lookup "content" d = Some (VStr (content m)).

(** The id the next [uuid.uuid4()] gives a stored file. *)
Definition next_file_id (w : World) : string :=
  uuid_str (entropy w (drawn w) mod 2 ^ 128).

(** The world once [file] is written to the temporary directory and
    registered under the next id. *)
Definition saved_world (file : UploadFile) (w : World) : World :=
  let file_id := next_file_id w in
  mkWorld
    (<[file_id := mkStoredFile file_id (filename file) (tmp_path file_id)]> (stored_files w))
    (<[tmp_path file_id := file_bytes file]> (disk w))
    (entropy w) (S (drawn w)) (clock w) (ticks w) (backend w) (sent w).

(** The exception of [requests] an outcome of the backend leads to in
    [call_postech_api], if any: no response, a 4xx or 5xx status, a body
    that is not JSON. *)
Definition backend_error (outcome : BackendOutcome) : option request_error :=
  match outcome with
  | NoResponse info => Some (TransportError info)
  | Responded status body =>
      if (400 <=? status) && (status <? 600) then Some (HTTPError status)
      else match body with
           | None => Some InvalidJSON
           | Some _ => None
           end
  end.

Definition is_dict (v : value) : bool :=
  match v with
  | VDict _ => true
  | _ => false
  end.

(** The registry is well formed: every entry sits under its own id, its
    path is the file of that id in the temporary directory, and that file
    is on the disk. *)
Definition registry_ok (w : World) : Prop :=
  forall file_id record,
    stored_files w !! file_id = Some record ->
    sf_id record = file_id
    /\ sf_path record = tmp_path file_id
    /\ is_Some (disk w !! sf_path record).

(** Whether a request brings a file that the handler stores. *)
Definition attached (request : Request) : option UploadFile :=
  match form_file request with
  | Some file => if truthy (of_form (filename file)) then Some file else None
  | None => None
  end.

(** More sample requests, and the environment that decodes their texts. *)
Definition empty_model_body : string :=
  "{" +:+ quoted "model" +:+ ": " +:+ quoted "" +:+ "}".

Definition stream_false_text_body : string :=
  "{" +:+ quoted "messages" +:+ ": " +:+ hi_text +:+ ", "
  +:+ quoted "stream" +:+ ": " +:+ quoted "false" +:+ "}".

Definition list_body : string := "[]".

(** A message object written content first, with one more key. *)
Definition named_message : value :=
  VDict [("content", VStr "hi"); ("name", VStr "bob"); ("role", VStr "user")].

Definition named_messages_text : string := dumps_plain (VList [named_message]).

Definition named_body_value : value :=
  VDict [("messages", VList [named_message]); ("model", VStr "postech-gemini")].

Definition named_body : string := dumps_plain named_body_value.

(** A body whose model is a list. *)
Definition list_model_value : value := VDict [("model", VList [])].

Definition list_model_body : string := dumps_plain list_model_value.

Definition more_texts : list (string * value) :=
  [(empty_model_body, VDict [("model", VStr "")]);
   (stream_false_text_body,
    VDict [("messages", hi_messages); ("stream", VStr "false")]);
   (list_body, VList []);
   (named_messages_text, VList [named_message]);
   (named_body, named_body_value);
   (list_model_body, list_model_value)].

Definition more_env : Env :=
  mkEnv "https://genai.postech.ac.kr/agent/api" "secret" "http://localhost:8080"
    (decode_with (more_texts ++ sample_texts)) dumps_plain class_name ascii_upper.

Definition down_world : World := fresh_world (NoResponse "connection refused").

Definition array_world : World := fresh_world (Responded 200 (Some (VList []))).

Definition notes_form : Request :=
  form_request (Some "postech-gemini") (Some hi_text) None (Some notes_file).

Definition other_file : UploadFile :=
  mkUploadFile (Some "other.bin") [Byte.x00; Byte.xff].

(** * Properties *)

(** ** Message transcoding *)

Lemma append_line_fold (env : Env) (messages : list Message) (acc : list string) :
  fold_left (append_line env) messages acc = acc ++ map (prompt_line env) messages.
Proof.
  revert acc.
  induction messages as [|m rest IH]; intros acc; simpl.
  - by rewrite app_nil_r.
  - rewrite IH. unfold append_line, prompt_line. by rewrite <- app_assoc.
Qed.

(** C4: [convert_messages_to_prompt] is a function of the message list alone
    (and of [str.upper]) that emits, for each message in input order, the
    role uppercased by [str.upper], a colon and a space, and the content,
    joined by one newline; the empty list gives the empty string, a single
    message its line with no newline; and the two transcoding examples of
    the specification hold, [str.upper] mapping [user] and [assistant] to
    their capitals. *)
Theorem convert_messages_to_prompt_spec (env : Env) :
  (forall messages : list Message,
      convert_messages_to_prompt env messages = join LF (map (prompt_line env) messages))
  /\ (forall msg : Message,
         prompt_line env msg = str_upper env (role msg) +:+ ": " +:+ content msg)
  /\ convert_messages_to_prompt env [] = ""
  /\ (forall m : Message, convert_messages_to_prompt env [m] = prompt_line env m)
  /\ (forall (m m' : Message) (rest : list Message),
         convert_messages_to_prompt env (m :: m' :: rest)
         = prompt_line env m +:+ LF +:+ convert_messages_to_prompt env (m' :: rest))
  /\ (str_upper env "user" = "USER" ->
      convert_messages_to_prompt env [mkMessage "user" "hi"] = "USER: hi")
  /\ (str_upper env "user" = "USER" ->
      str_upper env "assistant" = "ASSISTANT" ->
      convert_messages_to_prompt env [mkMessage "user" "a"; mkMessage "assistant" "b"]
      = "USER: a" +:+ LF +:+ "ASSISTANT: b").
Proof.
  assert (Hmap : forall messages,
             convert_messages_to_prompt env messages
             = join LF (map (prompt_line env) messages)).
  { intros messages. unfold convert_messages_to_prompt.
    by rewrite append_line_fold. }
  split; [exact Hmap|].
  split; [reflexivity|].
  split; [reflexivity|].
  split; [intros m; by rewrite Hmap|].
  split; [intros m m' rest; by rewrite !Hmap|].
  split.
  - intros Huser. rewrite Hmap. cbn [map]. unfold prompt_line, join.
    cbn [role content String.concat]. by rewrite Huser.
  - intros Huser Hassistant. rewrite Hmap. cbn [map]. unfold prompt_line, join.
    cbn [role content String.concat]. by rewrite Huser, Hassistant.
Qed.

Lemma convert_messages_to_prompt_spec_witness :
  str_upper sample_env "user" = "USER"
  /\ str_upper sample_env "assistant" = "ASSISTANT"
  /\ convert_messages_to_prompt sample_env
       [mkMessage "user" "a"; mkMessage "assistant" "b"]
     = "USER: a" +:+ LF +:+ "ASSISTANT: b".
Proof.
  split; [reflexivity|]. split; [reflexivity|].
  destruct (convert_messages_to_prompt_spec sample_env) as (_ & _ & _ & _ & _ & _ & Htwo).
  apply Htwo; reflexivity.
Defined.

(** ** The monad *)

Ltac unfold_monad :=
  unfold mbind, mret, M_bind, M_ret, lift, try_except, bind, ret, raise in *.

(** ** The backend client *)

Section BackendClient.

Context (env : Env).

(** One call posts exactly one request, whatever comes back. *)
Lemma call_postech_api_sent endpoint prompt files w :
  sent (snd (call_postech_api env endpoint prompt files w))
  = sent w ++ [backend_call env endpoint prompt files].
Proof.
  unfold call_postech_api, requests_post, raise_for_status, response_json.
  unfold_monad.
  destruct (backend w _) as [info|status data]; simpl; [done|].
  destruct ((400 <=? status) && (status <? 600)); simpl; [done|].
  destruct data as [data|]; simpl; [|done].
  by destruct (value_get data "replies" (VStr "")).
Qed.

(** A response outside 400..599 whose body is a JSON object makes the
    call return [data.get("replies", "")]. *)
Lemma call_postech_api_object endpoint prompt files w status d :
  backend w (backend_call env endpoint prompt files) = Responded status (Some (VDict d)) ->
  (400 <=? status) && (status <? 600) = false ->
  fst (call_postech_api env endpoint prompt files w) = inr (dict_get d "replies" (VStr "")).
Proof.
  intros Hback Hstatus.
  unfold call_postech_api, requests_post, raise_for_status, response_json.
  unfold_monad. rewrite Hback. simpl. by rewrite Hstatus.
Qed.

(** C1, amended: after a 2xx response whose body parses to a JSON object,
    [call_postech_api] returns the value of the [replies] field of that
    object, and the empty string when the object has no [replies] field. *)
Theorem call_postech_api_returns_replies endpoint prompt files w status d :
  backend w (backend_call env endpoint prompt files) = Responded status (Some (VDict d)) ->
  200 <= status < 300 ->
  fst (call_postech_api env endpoint prompt files w) = inr (dict_get d "replies" (VStr ""))
  /\ (forall v, field "replies" (VDict d) = Some v ->
        fst (call_postech_api env endpoint prompt files w) = inr v)
  /\ (field "replies" (VDict d) = None ->
        fst (call_postech_api env endpoint prompt files w) = inr (VStr "")).
Proof.
  intros Hback Hstatus.
  assert (Hcall := call_postech_api_object endpoint prompt files w status d Hback).
  rewrite Hcall by lia.
  unfold dict_get; simpl.
  split; [done|]. split; intros; by simplify_eq/=; rewrite ?H.
Qed.

(** C6 for the client alone: the request it posts has [stream] false. *)
Lemma backend_call_not_streamed endpoint prompt files :
  field "stream" (br_json (backend_call env endpoint prompt files)) = Some (VBool false).
Proof. reflexivity. Qed.

End BackendClient.

Lemma call_postech_api_returns_replies_witness :
  backend replies_world (backend_call sample_env "a1/gpt" "USER: hi" None)
  = Responded 200 (Some (VDict [("replies", VStr "hello")]))
  /\ 200 <= 200 < 300
  /\ fst (call_postech_api sample_env "a1/gpt" "USER: hi" None replies_world)
     = inr (VStr "hello").
Proof.
  split; [reflexivity|]. split; [lia|].
  apply (call_postech_api_returns_replies sample_env "a1/gpt" "USER: hi" None
           replies_world 200 [("replies", VStr "hello")]);
    [reflexivity | lia | reflexivity].
Defined.

(** C1 as stated fails: a 200 response whose body is the object with
    [reply] set to [hi] makes [call_postech_api] return the empty string,
    the field it reads being [replies]; and a 200 response whose body is
    the empty JSON array, in which no field is present, makes it raise. *)
Lemma call_postech_api_ignores_reply :
  backend reply_world (backend_call sample_env "a1/gpt" "USER: hi" None)
  = Responded 200 (Some (VDict [("reply", VStr "hi")]))
  /\ field "reply" (VDict [("reply", VStr "hi")]) = Some (VStr "hi")
  /\ fst (call_postech_api sample_env "a1/gpt" "USER: hi" None reply_world)
     = inr (VStr "")
  /\ VStr "" <> VStr "hi"
  /\ fst (call_postech_api sample_env "a1/gpt" "USER: hi" None
            (fresh_world (Responded 200 (Some (VList [])))))
     = inl (AttributeError "list" "get").
Proof. repeat split; try reflexivity. discriminate. Qed.

(** ** The file registry *)

Section FileRegistry.

Context (env : Env).

(** [get_file] reads the registry and nothing else. *)
Lemma get_file_pure file_id w : snd (get_file file_id w) = w.
Proof.
  unfold get_file, find_file. unfold_monad.
  by destruct (stored_files w !! file_id).
Qed.

(** C8: a file stored by [upload_file] is served by [get_file] at the
    returned id with its original bytes and its original filename; at an
    id that is not in the registry [get_file] raises the 404
    [HTTPException]; and [get_file] never changes the world, the registry
    included. *)
Theorem file_round_trip :
  (forall (file : UploadFile) (w : World),
      exists (file_id : string) (content : value) (w1 : World) (served : Response),
        upload_file env file w = (inr (JSONResponse content), w1)
        /\ field "id" content = Some (VStr file_id)
        /\ field "name" content = Some (of_form (filename file))
        /\ get_file file_id w1 = (inr served, w1)
        /\ served = FileResponse (tmp_path file_id) (filename file)
        /\ served_bytes served w1 = Some (file_bytes file))
  /\ (forall (file_id : string) (w : World),
         stored_files w !! file_id = None ->
         get_file file_id w = (inl (HTTPException 404 "File not found"), w)
         /\ http_status (fst (get_file file_id w)) = 404)
  /\ (forall (file_id : string) (w : World),
         stored_files (snd (get_file file_id w)) = stored_files w
         /\ snd (get_file file_id w) = w).
Proof.
  split; [|split].
  - intros file w.
    set (file_id := uuid_str (entropy w (drawn w) mod 2 ^ 128)).
    eexists file_id, _, _, _.
    split.
    { unfold upload_file, uuid4, write_file, register_file. unfold_monad.
      cbn. reflexivity. }
    split; [reflexivity|]. split; [reflexivity|].
    split.
    + unfold get_file, find_file. unfold_monad. cbn.
      rewrite lookup_insert_eq. reflexivity.
    + split; [reflexivity|]. cbn. apply lookup_insert_eq.
  - intros file_id w Hnone.
    unfold get_file, find_file. unfold_monad. by rewrite Hnone.
  - intros file_id w. by rewrite get_file_pure.
Qed.

End FileRegistry.

Lemma file_round_trip_witness :
  stored_files (fresh_world (NoResponse "")) !! "no-such-id" = None
  /\ get_file "no-such-id" (fresh_world (NoResponse ""))
     = (inl (HTTPException 404 "File not found"), fresh_world (NoResponse "")).
Proof.
  split; [reflexivity|].
  apply (file_round_trip sample_env). reflexivity.
Defined.

(** ** The synthetic stream *)

Lemma append_empty (s : string) : s +:+ "" = s.
Proof.
  induction s as [|c s IH]; [done|].
  change (String c (s +:+ "") = String c s). by rewrite IH.
Qed.

Lemma length_append (s t : string) :
  String.length (s +:+ t) = (String.length s + String.length t)%nat.
Proof.
  induction s as [|c s IH]; [done|].
  change (S (String.length (s +:+ t)) = S (String.length s + String.length t)).
  by rewrite IH.
Qed.

Lemma strip_prefix_append (p s : string) : strip_prefix p (p +:+ s) = Some s.
Proof.
  induction p as [|c p IH]; [done|].
  change (strip_prefix (String c p) (String c (p +:+ s)) = Some s).
  cbn [strip_prefix]. by rewrite Ascii.eqb_refl.
Qed.

Lemma chop_blank_line_append (p : string) : chop_blank_line (p +:+ LF +:+ LF) = Some p.
Proof.
  induction p as [|c p IH]; [done|].
  change (chop_blank_line (String c (p +:+ LF +:+ LF)) = Some (String c p)).
  cbn [chop_blank_line].
  assert (Hne : String.eqb (String c (p +:+ LF +:+ LF)) (LF +:+ LF) = false).
  { apply String.eqb_neq. intros Heq. apply (f_equal String.length) in Heq.
    cbn [String.length] in Heq. rewrite length_append in Heq. simpl in Heq. lia. }
  by rewrite Hne, IH.
Qed.

Lemma frame_payload_sse (payload : string) :
  frame_payload (sse_frame payload) = Some payload.
Proof.
  unfold frame_payload, sse_frame.
  by rewrite strip_prefix_append, chop_blank_line_append.
Qed.

(** C5: for every reply, model and completion id the generator yields
    exactly three frames: the chunk whose single choice carries the whole
    reply as an assistant-role content delta with [finish_reason] null,
    the chunk with an empty delta and [finish_reason] stop, and the literal
    end-of-stream frame; the two chunks carry the same completion id and
    the same timestamp, read from the clock once; the content deltas of
    the chunks, concatenated, are the reply; and so is the text a client
    reads off the frames, when the decoder gives back the two chunks from
    their serialisations and refuses the end-of-stream marker. *)
Theorem generate_stream_response_frames
    (env : Env) (reply model : value) (completion_id : string) (w : World) :
  let created := clock w (ticks w) in
  let chunk := content_chunk completion_id created model reply in
  let finish := finish_chunk completion_id created model in
  exists frames w',
    generate_stream_response env reply model completion_id w = (inr frames, w')
    /\ frames = [sse_frame (json_dumps env chunk); sse_frame (json_dumps env finish);
                 "data: [DONE]" +:+ LF +:+ LF]
    /\ length frames = 3%nat
    /\ ticks w' = S (ticks w)
    /\ choices chunk
       = [VDict [("index", VInt 0);
                 ("delta", VDict [("role", VStr "assistant"); ("content", reply)]);
                 ("finish_reason", VNone)]]
    /\ choices finish
       = [VDict [("index", VInt 0); ("delta", VDict []); ("finish_reason", VStr "stop")]]
    /\ field "id" chunk = Some (VStr completion_id)
    /\ field "id" finish = Some (VStr completion_id)
    /\ field "created" chunk = Some (VInt created)
    /\ field "created" finish = Some (VInt created)
    /\ (forall text : string,
           reply = VStr text ->
           delta_text chunk +:+ delta_text finish = text)
    /\ (forall text : string,
           reply = VStr text ->
           json_loads env (json_dumps env chunk) = Some chunk ->
           json_loads env (json_dumps env finish) = Some finish ->
           json_loads env "[DONE]" = None ->
           stream_text env frames = text).
Proof.
  intros created chunk finish.
  exists [sse_frame (json_dumps env chunk); sse_frame (json_dumps env finish);
          sse_frame "[DONE]"].
  eexists. split.
  { unfold generate_stream_response, time_time. unfold_monad. reflexivity. }
  repeat (split; [reflexivity|]).
  split.
  - intros text ->. unfold delta_text, join. simpl. apply append_empty.
  - intros text -> Hchunk Hfinish Hdone.
    unfold stream_text, frame_text. cbn [map].
    rewrite !frame_payload_sse, Hchunk, Hfinish, Hdone.
    subst chunk finish. unfold delta_text, join. simpl.
    by rewrite !append_empty.
Qed.

Lemma generate_stream_response_frames_witness :
  json_loads sample_env (json_dumps sample_env ok_chunk) = Some ok_chunk
  /\ json_loads sample_env (json_dumps sample_env ok_finish_chunk) = Some ok_finish_chunk
  /\ json_loads sample_env "[DONE]" = None
  /\ exists frames,
       fst (generate_stream_response sample_env (VStr "ok") (VStr "postech-gpt")
              "chatcmpl-0123456789ab" replies_world) = inr frames
       /\ length frames = 3%nat
       /\ stream_text sample_env frames = "ok".
Proof.
  split; [reflexivity|]. split; [reflexivity|]. split; [reflexivity|].
  destruct (generate_stream_response_frames sample_env (VStr "ok") (VStr "postech-gpt")
              "chatcmpl-0123456789ab" replies_world)
    as (frames & w' & Hrun & _ & Hlen & _ & _ & _ & _ & _ & _ & _ & _ & Htext).
  exists frames. rewrite Hrun. split; [reflexivity|]. split; [exact Hlen|].
  apply Htext; reflexivity.
Defined.

(** ** Completion identifiers *)

Lemma all_chars_append (p : ascii -> bool) (s t : string) :
  all_chars p (s +:+ t) = all_chars p s && all_chars p t.
Proof.
  induction s as [|c s IH]; [done|].
  change (p c && all_chars p (s +:+ t) = p c && all_chars p s && all_chars p t).
  rewrite IH. by destruct (p c).
Qed.

Lemma hex_digit_is_hex (d : Z) : is_hex_char (hex_digit d) = true.
Proof.
  destruct d as [|p|p]; try reflexivity.
  do 5 (try (destruct p as [p|p|]; try reflexivity)).
Qed.

Lemma hex_digits_length (n : nat) (z : Z) : String.length (hex_digits n z) = n.
Proof.
  revert z. induction n as [|n IH]; intros z; [done|].
  cbn [hex_digits]. rewrite length_append, IH. simpl. lia.
Qed.

Lemma hex_digits_are_hex (n : nat) (z : Z) :
  all_chars is_hex_char (hex_digits n z) = true.
Proof.
  revert z. induction n as [|n IH]; intros z; [done|].
  cbn [hex_digits]. rewrite all_chars_append, IH.
  cbn [all_chars]. by rewrite hex_digit_is_hex.
Qed.

Lemma substring_prefix_length (m : nat) (s : string) :
  (m <= String.length s)%nat -> String.length (substring 0 m s) = m.
Proof.
  revert s. induction m as [|m IH]; intros s Hlen.
  - by destruct s.
  - destruct s as [|c s]; simpl in *; [lia|]. rewrite IH; [done|lia].
Qed.

Lemma all_chars_substring (p : ascii -> bool) (n m : nat) (s : string) :
  all_chars p s = true -> all_chars p (substring n m s) = true.
Proof.
  revert n m. induction s as [|c s IH]; intros n m Hall.
  - by destruct n, m.
  - simpl in Hall. apply andb_prop in Hall as [Hc Hs].
    destruct n as [|n]; [destruct m as [|m]|]; simpl; auto.
    by rewrite Hc, IH.
Qed.

(** The id of a completion: the literal prefix and twelve hexadecimal
    characters. *)
Lemma completion_id_of_form (u : Z) :
  exists suffix : string,
    completion_id_of u = "chatcmpl-" +:+ suffix
    /\ String.length suffix = 12%nat
    /\ all_chars is_hex_char suffix = true.
Proof.
  exists (substring 0 12 (uuid_hex u)). split; [reflexivity|]. split.
  - apply substring_prefix_length. unfold uuid_hex. rewrite hex_digits_length. lia.
  - apply all_chars_substring, hex_digits_are_hex.
Qed.

(** ** The router *)

Section Router.

Context (env : Env).

(** Parsing the request reads it and nothing else. *)
Lemma parse_form_world request w : snd (parse_form env request w) = w.
Proof.
  unfold parse_form.
  destruct (negb (truthy (of_form (form_messages request)))); [done|].
  unfold_monad.
  destruct (loads env (default "" (form_messages request))) as [e|decoded]; simpl.
  - by destruct (is_decode_or_type_error e).
  - destruct (build_messages decoded) as [e|parsed]; simpl; [|done].
    by destruct (is_decode_or_type_error e).
Qed.

Lemma parse_json_world request w : snd (parse_json env request w) = w.
Proof.
  unfold parse_json. unfold_monad.
  destruct (loads env (body request)) as [e|decoded]; simpl; [done|].
  destruct (value_get decoded "model" _) as [e|model]; simpl; [done|].
  destruct (value_get decoded "messages" _) as [e|messages]; simpl; [done|].
  destruct (build_messages messages) as [e|parsed]; simpl; [done|].
  by destruct (value_get decoded "stream" _).
Qed.

Lemma parse_request_world request w : snd (parse_request env request w) = w.
Proof.
  unfold parse_request.
  destruct (is_multipart request); [apply parse_form_world | apply parse_json_world].
Qed.

Lemma parse_request_eq request w r :
  fst (parse_request env request w) = r -> parse_request env request w = (r, w).
Proof.
  intros <-. rewrite <- (parse_request_world request w) at 3.
  by destruct (parse_request env request w).
Qed.

(** The file block always yields a list, and leaves the backend, its log
    and the clock alone. *)
Lemma attach_file_ok request w :
  exists files w1,
    attach_file env request w = (inr files, w1)
    /\ sent w1 = sent w /\ backend w1 = backend w
    /\ clock w1 = clock w /\ ticks w1 = ticks w.
Proof.
  unfold attach_file.
  destruct (form_file request) as [file|]; [|by eexists _, _].
  destruct (truthy (of_form (filename file))); [|by eexists _, _].
  unfold save_uploaded_file, uuid4, write_file, register_file. unfold_monad.
  cbn. by eexists _, _.
Qed.

(** What the handler does once the request is parsed, step by step. *)
Lemma chat_completions_parse_error request w e :
  fst (parse_request env request w) = inl e ->
  chat_completions env request w = (inl e, w).
Proof.
  intros Hparse. apply parse_request_eq in Hparse.
  unfold chat_completions. unfold_monad. by rewrite Hparse.
Qed.

Lemma chat_completions_unhashable request w model messages is_stream e :
  fst (parse_request env request w) = inr (model, messages, is_stream) ->
  hash_key model = inl e ->
  chat_completions env request w = (inl e, w).
Proof.
  intros Hparse Hkey. apply parse_request_eq in Hparse.
  unfold chat_completions. unfold_monad. rewrite Hparse. cbn beta iota.
  by rewrite Hkey.
Qed.

Lemma chat_completions_unknown request w model messages is_stream key :
  fst (parse_request env request w) = inr (model, messages, is_stream) ->
  hash_key model = inr key ->
  endpoint_of key = None ->
  chat_completions env request w
  = (inl (HTTPException 400
            ("Invalid model: " +:+ str_scalar key +:+ ". Available: "
             +:+ available_models)), w).
Proof.
  intros Hparse Hkey Hnone. apply parse_request_eq in Hparse.
  unfold chat_completions. unfold_monad. rewrite Hparse. cbn beta iota.
  rewrite Hkey. cbn beta iota. by rewrite Hnone.
Qed.

Lemma chat_completions_known request w model messages is_stream key endpoint files w1 :
  fst (parse_request env request w) = inr (model, messages, is_stream) ->
  hash_key model = inr key ->
  endpoint_of key = Some endpoint ->
  attach_file env request w = (inr files, w1) ->
  chat_completions env request w
  = match call_postech_api env endpoint (convert_messages_to_prompt env messages)
            (Some files) w1 with
    | (inl e, w2) =>
        if is_request_exception e
        then (inl (HTTPException 502 ("POSTECH API error: " +:+ str_exn env e)), w2)
        else (inl e, w2)
    | (inr reply, w2) =>
        let completion_id := completion_id_of (entropy w2 (drawn w2) mod 2 ^ 128) in
        if truthy is_stream
        then (inr (StreamingResponse reply model completion_id "text/event-stream"
                     [("Cache-Control", "no-cache"); ("Connection", "keep-alive")]),
              snd (uuid4 w2))
        else (inr (JSONResponse (completion completion_id (clock w2 (ticks w2)) model reply)),
              snd (time_time (snd (uuid4 w2))))
    end.
Proof.
  intros Hparse Hkey Hsome Hfiles. apply parse_request_eq in Hparse.
  unfold chat_completions. unfold_monad. rewrite Hparse. cbn beta iota.
  rewrite Hkey. cbn beta iota. rewrite Hsome, Hfiles. cbn beta iota.
  unfold uuid4, time_time.
  destruct (call_postech_api env endpoint _ (Some files) w1) as [[e|reply] w2]; simpl.
  - by destruct (is_request_exception e).
  - by destruct (truthy is_stream).
Qed.

End Router.

(** ** The chat-completions endpoint *)

(** [is_stream] of a multipart request is true exactly for a [stream]
    field that reads [true] once lowercased. *)
Lemma stream_flag_true (stream : option string) :
  truthy (stream_flag stream) = true
  <-> exists text, stream = Some text /\ lower text = "true".
Proof.
  destruct stream as [text|]; simpl.
  - unfold py_and. simpl truthy.
    destruct (String.eqb_spec text "") as [->|Hne]; simpl.
    + split; [discriminate|]. intros (t & Ht & Hlow). by simplify_eq.
    + rewrite String.eqb_eq.
      split; [eauto|]. intros (t & Ht & Hlow). by simplify_eq.
  - split; [discriminate|]. by intros (t & Ht & _).
Qed.

Section Endpoint.

Context (env : Env).

Lemma parse_form_flag request w model messages is_stream :
  fst (parse_form env request w) = inr (model, messages, is_stream) ->
  is_stream = stream_flag (form_stream request)
  /\ model = py_or (of_form (form_model request)) (VStr DEFAULT_MODEL).
Proof.
  unfold parse_form.
  destruct (negb (truthy (of_form (form_messages request)))); [done|].
  unfold_monad.
  destruct (loads env (default "" (form_messages request))) as [e|decoded]; simpl.
  { by destruct (is_decode_or_type_error e). }
  destruct (build_messages decoded) as [e|parsed]; simpl.
  { by destruct (is_decode_or_type_error e). }
  intros [= <- <- <-]. done.
Qed.

(** The log of backend requests after one run of the handler. *)
Lemma chat_completions_sent request w :
  sent (snd (chat_completions env request w)) = sent w
  \/ exists name messages is_stream endpoint files,
       fst (parse_request env request w) = inr (VStr name, messages, is_stream)
       /\ table_lookup name MODEL_ENDPOINTS = Some endpoint
       /\ sent (snd (chat_completions env request w))
          = sent w ++ [backend_call env endpoint (convert_messages_to_prompt env messages)
                         (Some files)].
Proof.
  destruct (fst (parse_request env request w)) as [e|[[model messages] is_stream]] eqn:Hparse.
  { left. by rewrite (chat_completions_parse_error env request w e). }
  destruct (hash_key model) as [e|key] eqn:Hkey.
  { left. by rewrite (chat_completions_unhashable env request w model messages is_stream e). }
  destruct (endpoint_of key) as [endpoint|] eqn:Hend.
  2:{ left. by rewrite (chat_completions_unknown env request w model messages is_stream key). }
  destruct (attach_file_ok env request w) as (files & w1 & Hfiles & Hsent & _).
  right.
  assert (Hname : exists name, model = VStr name /\ key = SStr name).
  { destruct model; simplify_eq/=; eauto; try done. }
  destruct Hname as (name & -> & ->).
  exists name, messages, is_stream, endpoint, files.
  split; [done|]. split; [done|].
  rewrite (chat_completions_known env request w _ _ _ _ _ _ _ Hparse Hkey Hend Hfiles).
  pose proof (call_postech_api_sent env endpoint (convert_messages_to_prompt env messages)
                (Some files) w1) as Hcall.
  destruct (call_postech_api env endpoint _ (Some files) w1) as [[e|reply] w2];
    simpl in Hcall.
  - destruct (is_request_exception e); simpl; by rewrite Hcall, Hsent.
  - destruct (truthy is_stream); simpl; by rewrite Hcall, Hsent.
Qed.

(** C6: the request [call_postech_api] posts has [stream] false, and
    every backend request a run of [chat_completions] adds to the log, for
    any request and so for any value of the caller's stream flag, has
    [stream] false; a run adds at most one. *)
Theorem backend_never_streams :
  (forall endpoint prompt files w,
      sent (snd (call_postech_api env endpoint prompt files w))
      = sent w ++ [backend_call env endpoint prompt files]
      /\ field "stream" (br_json (backend_call env endpoint prompt files))
         = Some (VBool false))
  /\ (forall request w,
         exists new,
           sent (snd (chat_completions env request w)) = sent w ++ new
           /\ (length new <= 1)%nat
           /\ Forall (fun r => field "stream" (br_json r) = Some (VBool false)) new).
Proof.
  split.
  - intros. split; [apply call_postech_api_sent | reflexivity].
  - intros request w.
    destruct (chat_completions_sent request w)
      as [Hsame|(name & messages & is_stream & endpoint & files & _ & _ & Hsent)].
    + exists []. rewrite app_nil_r. split; [done|]. split; [simpl; lia | constructor].
    + eexists [_]. split; [exact Hsent|]. split; [simpl; lia|].
      constructor; [reflexivity | constructor].
Qed.

(** C3, amended: when the messages of a request are accepted and its
    model resolves to a value that can be hashed and is not a key of
    [MODEL_ENDPOINTS], the handler raises the 400 [HTTPException] whose
    detail names the model and lists the three valid models, and leaves
    the world as it was; and whenever a run of the handler posts a request
    to the backend, the model of the request resolved to a key of
    [MODEL_ENDPOINTS]. *)
Theorem unknown_model_rejected :
  (forall request w model messages is_stream key,
      fst (parse_request env request w) = inr (model, messages, is_stream) ->
      hash_key model = inr key ->
      endpoint_of key = None ->
      chat_completions env request w
      = (inl (HTTPException 400
                ("Invalid model: " +:+ str_scalar key
                 +:+ ". Available: ['postech-gpt', 'postech-gemini', 'postech-claude']")),
         w)
      /\ http_status (fst (chat_completions env request w)) = 400
      /\ sent (snd (chat_completions env request w)) = sent w)
  /\ (forall request w,
         sent (snd (chat_completions env request w)) <> sent w ->
         exists name messages is_stream endpoint,
           fst (parse_request env request w) = inr (VStr name, messages, is_stream)
           /\ table_lookup name MODEL_ENDPOINTS = Some endpoint).
Proof.
  split.
  - intros request w model messages is_stream key Hparse Hkey Hnone.
    rewrite (chat_completions_unknown env request w model messages is_stream key)
      by done.
    done.
  - intros request w Hsent.
    destruct (chat_completions_sent request w)
      as [Hsame|(name & messages & is_stream & endpoint & files & Hparse & Hend & _)];
      [done|].
    by exists name, messages, is_stream, endpoint.
Qed.

(** C7: for a request whose parsing succeeds with a model that is a key of
    [MODEL_ENDPOINTS] and a stream flag that is not true, and whose
    backend call returns the reply [reply], the handler returns (status
    200) the completion object: one choice, whose message has the
    assistant role and [reply] itself as content, [finish_reason] stop,
    the object tag [chat.completion], and an id made of [chatcmpl-] and
    twelve hexadecimal characters. *)
Theorem chat_completions_non_streaming
    request w name messages is_stream endpoint files w1 reply w2 :
  fst (parse_request env request w) = inr (VStr name, messages, is_stream) ->
  truthy is_stream = false ->
  table_lookup name MODEL_ENDPOINTS = Some endpoint ->
  attach_file env request w = (inr files, w1) ->
  call_postech_api env endpoint (convert_messages_to_prompt env messages) (Some files) w1
  = (inr reply, w2) ->
  exists suffix created content w',
    chat_completions env request w = (inr (JSONResponse content), w')
    /\ http_status (fst (chat_completions env request w)) = 200
    /\ content = completion ("chatcmpl-" +:+ suffix) created (VStr name) reply
    /\ String.length suffix = 12%nat
    /\ all_chars is_hex_char suffix = true
    /\ choices content
       = [VDict [("index", VInt 0);
                 ("message", VDict [("role", VStr "assistant"); ("content", reply)]);
                 ("finish_reason", VStr "stop")]]
    /\ field "object" content = Some (VStr "chat.completion")
    /\ field "id" content = Some (VStr ("chatcmpl-" +:+ suffix))
    /\ field "model" content = Some (VStr name).
Proof.
  intros Hparse Hflag Hend Hfiles Hcall.
  rewrite (chat_completions_known env request w _ _ _ (SStr name) endpoint files w1
             Hparse eq_refl Hend Hfiles).
  rewrite Hcall, Hflag. cbn zeta.
  destruct (completion_id_of_form (entropy w2 (drawn w2) mod 2 ^ 128))
    as (suffix & Hid & Hlen & Hhex).
  rewrite Hid.
  exists suffix, (clock w2 (ticks w2)). eexists _, _.
  split; [reflexivity|]. by repeat split.
Qed.

(** What [call_postech_api] can raise: an exception of [requests], or the
    [AttributeError] of a body that is not an object. *)
Lemma call_postech_api_raises endpoint prompt files w e :
  fst (call_postech_api env endpoint prompt files w) = inl e ->
  is_request_exception e = true \/ exists ty, e = AttributeError ty "get".
Proof.
  unfold call_postech_api, requests_post, raise_for_status, response_json.
  unfold_monad.
  destruct (backend w _) as [info|status data]; simpl.
  { intros [= <-]. by left. }
  destruct ((400 <=? status) && (status <? 600)); simpl.
  { intros [= <-]. by left. }
  destruct data as [data|]; simpl.
  2:{ intros [= <-]. by left. }
  unfold value_get. destruct data; simpl; intros [= <-]; right; eauto.
Qed.

(** A response is returned only for a parsed request, and its shape
    follows the stream flag. *)
Lemma chat_completions_returns request w resp w' :
  chat_completions env request w = (inr resp, w') ->
  exists model messages is_stream completion_id created reply,
    fst (parse_request env request w) = inr (model, messages, is_stream)
    /\ resp = if truthy is_stream
              then StreamingResponse reply model completion_id "text/event-stream"
                     [("Cache-Control", "no-cache"); ("Connection", "keep-alive")]
              else JSONResponse (completion completion_id created model reply).
Proof.
  destruct (fst (parse_request env request w)) as [e|[[model messages] is_stream]] eqn:Hparse.
  { by rewrite (chat_completions_parse_error env request w e). }
  destruct (hash_key model) as [e|key] eqn:Hkey.
  { by rewrite (chat_completions_unhashable env request w model messages is_stream e). }
  destruct (endpoint_of key) as [endpoint|] eqn:Hend.
  2:{ by rewrite (chat_completions_unknown env request w model messages is_stream key). }
  destruct (attach_file_ok env request w) as (files & w1 & Hfiles & _).
  rewrite (chat_completions_known env request w _ _ _ _ _ _ _ Hparse Hkey Hend Hfiles).
  destruct (call_postech_api env endpoint _ (Some files) w1) as [[e|reply] w2].
  { by destruct (is_request_exception e). }
  cbn zeta. intros Hret.
  exists model, messages, is_stream,
    (completion_id_of (entropy w2 (drawn w2) mod 2 ^ 128)), (clock w2 (ticks w2)), reply.
  split; [done|].
  destruct (truthy is_stream); by simplify_eq.
Qed.

(** What holds of a JSON-body request whose [messages] field is absent or
    the empty list: it is parsed into the empty message list, whose prompt
    is the empty string; when its model names a key of [MODEL_ENDPOINTS]
    the backend is called, with the empty prompt, and the answer is not a
    400; when its model can be hashed and is not a key the request is
    rejected with status 400 and the backend is not called. *)
Theorem empty_messages_accepted request w d :
  is_multipart request = false ->
  json_loads env (body request) = Some (VDict d) ->
  field "messages" (VDict d) = None \/ field "messages" (VDict d) = Some (VList []) ->
  let model := dict_get d "model" (VStr DEFAULT_MODEL) in
  fst (parse_request env request w) = inr (model, [], dict_get d "stream" (VBool false))
  /\ convert_messages_to_prompt env [] = ""
  /\ (forall name endpoint,
         model = VStr name ->
         table_lookup name MODEL_ENDPOINTS = Some endpoint ->
         (exists files,
             sent (snd (chat_completions env request w))
             = sent w ++ [backend_call env endpoint "" (Some files)])
         /\ http_status (fst (chat_completions env request w)) <> 400)
  /\ (forall key,
         hash_key model = inr key ->
         endpoint_of key = None ->
         http_status (fst (chat_completions env request w)) = 400
         /\ sent (snd (chat_completions env request w)) = sent w).
Proof.
  intros Hjson Hloads Hmessages model.
  assert (Hparse : fst (parse_request env request w)
                   = inr (model, [], dict_get d "stream" (VBool false))).
  { unfold parse_request. rewrite Hjson.
    unfold parse_json, loads. rewrite Hloads. unfold_monad. simpl.
    assert (Hget : dict_get d "messages" (VList []) = VList []).
    { unfold dict_get. simpl in Hmessages. by destruct Hmessages as [-> | ->]. }
    by rewrite Hget. }
  split; [exact Hparse|]. split; [reflexivity|]. split.
  - intros name endpoint Hname Hend. rewrite Hname in Hparse.
    destruct (attach_file_ok env request w) as (files & w1 & Hfiles & Hsent & _).
    rewrite (chat_completions_known env request w _ _ _ (SStr name) endpoint files w1
               Hparse eq_refl Hend Hfiles).
    change (convert_messages_to_prompt env []) with "".
    pose proof (call_postech_api_sent env endpoint "" (Some files) w1) as Hlog.
    pose proof (call_postech_api_raises endpoint "" (Some files) w1) as Hexn.
    destruct (call_postech_api env endpoint "" (Some files) w1) as [[e|reply] w2];
      simpl in Hlog.
    + destruct (Hexn e eq_refl) as [Hreq|[ty ->]].
      * rewrite Hreq. simpl. split; [|done].
        exists files. by rewrite Hlog, Hsent.
      * simpl. split; [|done]. exists files. by rewrite Hlog, Hsent.
    + split.
      * exists files. destruct (truthy _); simpl; by rewrite Hlog, Hsent.
      * by destruct (truthy _).
  - intros key Hkey Hnone.
    by rewrite (chat_completions_unknown env request w model []
                  (dict_get d "stream" (VBool false)) key).
Qed.

(** C10: the response to a multipart request is the [StreamingResponse]
    exactly when the [stream] field was submitted and reads [true] once
    lowercased, and is the single completion object otherwise; so [True]
    and [TRUE] stream, and an absent field, the empty string, [1] and any
    other text do not. *)
Theorem multipart_stream_flag :
  (forall request w resp w',
      is_multipart request = true ->
      chat_completions env request w = (inr resp, w') ->
      (is_streaming resp = true
       <-> exists text, form_stream request = Some text /\ lower text = "true")
      /\ (is_streaming resp = false ->
          exists completion_id created model reply,
            resp = JSONResponse (completion completion_id created model reply)))
  /\ truthy (stream_flag (Some "true")) = true
  /\ truthy (stream_flag (Some "True")) = true
  /\ truthy (stream_flag (Some "TRUE")) = true
  /\ truthy (stream_flag None) = false
  /\ truthy (stream_flag (Some "")) = false
  /\ truthy (stream_flag (Some "1")) = false
  /\ truthy (stream_flag (Some "yes")) = false.
Proof.
  split; [|by repeat split].
  intros request w resp w' Hform Hret.
  destruct (chat_completions_returns request w resp w' Hret)
    as (model & messages & is_stream & completion_id & created & reply & Hparse & ->).
  unfold parse_request in Hparse. rewrite Hform in Hparse.
  apply parse_form_flag in Hparse as [-> _].
  rewrite <- stream_flag_true.
  destruct (truthy (stream_flag (form_stream request))); simpl.
  - split; [done|]. discriminate.
  - split; [done|]. intros _. by eexists _, _, _, _.
Qed.

(** What the multipart branch does reject: a missing or empty [messages]
    field, a text that is not JSON, and a decoded value whose iteration or
    unpacking raises a [TypeError]; each with the 400 [HTTPException], the
    last two carrying the text of the exception. *)
Lemma form_messages_rejected request w :
  is_multipart request = true ->
  (truthy (of_form (form_messages request)) = false ->
   chat_completions env request w
   = (inl (HTTPException 400 "messages field is required"), w))
  /\ (forall text,
         form_messages request = Some text -> text <> "" ->
         json_loads env text = None ->
         chat_completions env request w
         = (inl (HTTPException 400
                   ("Invalid messages format: " +:+ str_exn env (JSONDecodeError text))),
            w))
  /\ (forall text decoded e,
         form_messages request = Some text -> text <> "" ->
         json_loads env text = Some decoded ->
         build_messages decoded = inl (TypeError e) ->
         chat_completions env request w
         = (inl (HTTPException 400
                   ("Invalid messages format: " +:+ str_exn env (TypeError e))),
            w)).
Proof.
  intros Hform. split; [|split].
  - intros Hfalsy. apply chat_completions_parse_error.
    unfold parse_request, parse_form. by rewrite Hform, Hfalsy.
  - intros text Htext Hne Hloads. apply chat_completions_parse_error.
    unfold parse_request, parse_form, loads. rewrite Hform, Htext. simpl.
    apply String.eqb_neq in Hne. rewrite Hne. simpl.
    unfold_monad. by rewrite Hloads.
  - intros text decoded e Htext Hne Hloads Hbuild. apply chat_completions_parse_error.
    unfold parse_request, parse_form, loads. rewrite Hform, Htext. simpl.
    apply String.eqb_neq in Hne. rewrite Hne. simpl.
    unfold_monad. by rewrite Hloads, Hbuild.
Qed.

End Endpoint.

(** ** The statements on the sample requests *)

Lemma unknown_model_rejected_witness :
  fst (parse_request sample_env nope_request replies_world)
  = inr (VStr "nope", [], VBool false)
  /\ hash_key (VStr "nope") = inr (SStr "nope")
  /\ endpoint_of (SStr "nope") = None
  /\ chat_completions sample_env nope_request replies_world
     = (inl (HTTPException 400
               "Invalid model: nope. Available: ['postech-gpt', 'postech-gemini', 'postech-claude']"),
        replies_world).
Proof.
  split; [reflexivity|]. split; [reflexivity|]. split; [reflexivity|].
  destruct (proj1 (unknown_model_rejected sample_env) nope_request replies_world
              (VStr "nope") [] (VBool false) (SStr "nope")) as [Hrun _];
    [reflexivity | reflexivity | reflexivity | exact Hrun].
Defined.

(** C3 as stated fails.  A multipart request that names the model [nope],
    which is not in the table, and submits no [messages] is answered by
    the 400 of the missing field, whose detail lists no model; and a JSON
    request whose body gives the model [nope] and the number 5 as
    [messages] ends in a [TypeError], status 500. *)
Lemma unknown_model_not_listed :
  form_model nope_without_messages_form = Some "nope"
  /\ table_lookup "nope" MODEL_ENDPOINTS = None
  /\ fst (chat_completions sample_env nope_without_messages_form replies_world)
     = inl (HTTPException 400 "messages field is required")
  /\ contains available_models "messages field is required" = false
  /\ json_loads sample_env (body nope_five_request)
     = Some (VDict [("model", VStr "nope"); ("messages", VInt 5)])
  /\ fst (chat_completions sample_env nope_five_request replies_world)
     = inl (TypeError (NotIterable "int"))
  /\ http_status (fst (chat_completions sample_env nope_five_request replies_world))
     = 500.
Proof. repeat split; vm_compute; reflexivity. Qed.

Lemma chat_completions_non_streaming_witness :
  fst (parse_request sample_env hi_request replies_world)
  = inr (VStr "postech-gpt", [mkMessage "user" "hi"], VBool false)
  /\ truthy (VBool false) = false
  /\ table_lookup "postech-gpt" MODEL_ENDPOINTS = Some "a1/gpt"
  /\ attach_file sample_env hi_request replies_world = (inr [], replies_world)
  /\ fst (call_postech_api sample_env "a1/gpt" "USER: hi" (Some []) replies_world)
     = inr (VStr "hello")
  /\ http_status (fst (chat_completions sample_env hi_request replies_world)) = 200.
Proof.
  split; [reflexivity|]. split; [reflexivity|]. split; [reflexivity|].
  split; [reflexivity|]. split; [reflexivity|].
  destruct (chat_completions_non_streaming sample_env hi_request replies_world
              "postech-gpt" [mkMessage "user" "hi"] (VBool false) "a1/gpt" []
              replies_world (VStr "hello")
              (snd (call_postech_api sample_env "a1/gpt" "USER: hi" (Some [])
                      replies_world)))
    as (suffix & created & content & w' & _ & Hstatus & _);
    [reflexivity | reflexivity | reflexivity | reflexivity | reflexivity | exact Hstatus].
Defined.

Lemma empty_messages_accepted_witness :
  is_multipart claude_request = false
  /\ json_loads sample_env (body claude_request)
     = Some (VDict [("model", VStr "postech-claude")])
  /\ field "messages" (VDict [("model", VStr "postech-claude")]) = None
  /\ fst (parse_request sample_env claude_request replies_world)
     = inr (VStr "postech-claude", [], VBool false)
  /\ sent (snd (chat_completions sample_env claude_request replies_world))
     = [backend_call sample_env "a3/claude" "" (Some [])].
Proof.
  split; [reflexivity|]. split; [reflexivity|]. split; [reflexivity|].
  destruct (empty_messages_accepted sample_env claude_request replies_world
              [("model", VStr "postech-claude")])
    as (Hparse & _ & _ & _);
    [reflexivity | reflexivity | left; reflexivity |].
  split; [exact Hparse | reflexivity].
Defined.

Lemma multipart_stream_flag_witness :
  is_multipart hi_stream_form = true
  /\ fst (chat_completions sample_env hi_stream_form replies_world)
     = inr (StreamingResponse (VStr "hello") (VStr "postech-gpt")
              "chatcmpl-0123456789ab" "text/event-stream"
              [("Cache-Control", "no-cache"); ("Connection", "keep-alive")])
  /\ exists text, form_stream hi_stream_form = Some text /\ lower text = "true".
Proof.
  split; [reflexivity|]. split; [reflexivity|].
  apply (proj1 (multipart_stream_flag sample_env) hi_stream_form replies_world
           (StreamingResponse (VStr "hello") (VStr "postech-gpt")
              "chatcmpl-0123456789ab" "text/event-stream"
              [("Cache-Control", "no-cache"); ("Connection", "keep-alive")])
           (snd (chat_completions sample_env hi_stream_form replies_world)));
    reflexivity.
Defined.

(** C2 fails on the code.  The multipart request whose [messages] field is
    the JSON list of one object with a [role] and no [content] is not
    answered with a 400: the [ValidationError] of [Message] is none of the
    exceptions the handler catches, and it leaves the handler (status
    500).  And the request whose [messages] field is the empty JSON object,
    which is no list of messages either, is accepted as the empty list:
    the backend is called, with the empty prompt, and the completion is
    returned. *)
Theorem invalid_messages_not_rejected :
  form_messages no_content_form
  = Some ("[{" +:+ quoted "role" +:+ ": " +:+ quoted "user" +:+ "}]")
  /\ json_loads sample_env no_content_text = Some (VList [VDict [("role", VStr "user")]])
  /\ chat_completions sample_env no_content_form replies_world
     = (inl (ValidationError ["content"]), replies_world)
  /\ http_status (fst (chat_completions sample_env no_content_form replies_world)) = 500
  /\ form_messages empty_object_form = Some "{}"
  /\ json_loads sample_env empty_object_text = Some (VDict [])
  /\ fst (chat_completions sample_env empty_object_form replies_world)
     = inr (JSONResponse (completion "chatcmpl-0123456789ab" 1700000000
                            (VStr "postech-gpt") (VStr "hello")))
  /\ sent (snd (chat_completions sample_env empty_object_form replies_world))
     = [backend_call sample_env "a1/gpt" "" (Some [])].
Proof. repeat split; vm_compute; reflexivity. Qed.

(** * Further properties of the code *)

(** ** Transcoding *)

Lemma string_app_assoc (a b c : string) : (a +:+ b) +:+ c = a +:+ (b +:+ c).
Proof.
  induction a as [|x a IH]; [done|].
  change (String x ((a +:+ b) +:+ c) = String x (a +:+ (b +:+ c))). by rewrite IH.
Qed.

Lemma convert_messages_to_prompt_lines (env : Env) (messages : list Message) :
  convert_messages_to_prompt env messages = join LF (map (prompt_line env) messages).
Proof. unfold convert_messages_to_prompt. by rewrite append_line_fold. Qed.

Lemma join_cons (sep x y : string) (l : list string) :
  join sep (x :: y :: l) = x +:+ sep +:+ join sep (y :: l).
Proof. reflexivity. Qed.

Lemma join_app (sep : string) (l1 l2 : list string) :
  l1 <> [] -> l2 <> [] ->
  join sep (l1 ++ l2) = join sep l1 +:+ sep +:+ join sep l2.
Proof.
  intros H1 H2. induction l1 as [|x l1 IH]; [done|].
  destruct l1 as [|y l1].
  - destruct l2 as [|z l2]; [done|]. reflexivity.
  - change ((x :: y :: l1) ++ l2) with (x :: y :: (l1 ++ l2)).
    rewrite !join_cons. change (y :: l1 ++ l2) with ((y :: l1) ++ l2).
    rewrite IH by done. by rewrite !string_app_assoc.
Qed.

(** X13: the prompt of two message lists put end to end is the two
    prompts joined by one newline, when neither list is empty. *)
Theorem convert_messages_to_prompt_app (env : Env) (a b : list Message) :
  a <> [] -> b <> [] ->
  convert_messages_to_prompt env (a ++ b)
  = convert_messages_to_prompt env a +:+ LF +:+ convert_messages_to_prompt env b.
Proof.
  intros Ha Hb. rewrite !convert_messages_to_prompt_lines, map_app.
  apply join_app; by destruct a, b.
Qed.

Lemma convert_messages_to_prompt_app_witness :
  [mkMessage "system" "be brief"] <> []
  /\ [mkMessage "user" "hi"] <> []
  /\ convert_messages_to_prompt sample_env
       ([mkMessage "system" "be brief"] ++ [mkMessage "user" "hi"])
     = "SYSTEM: be brief" +:+ LF +:+ "USER: hi".
Proof.
  split; [discriminate|]. split; [discriminate|].
  rewrite (convert_messages_to_prompt_app sample_env [mkMessage "system" "be brief"]
             [mkMessage "user" "hi"]); [reflexivity | discriminate | discriminate].
Defined.

(** X14: the transcoding does not separate messages from newlines inside
    a content: a message followed by a second one gives the same prompt
    as the single message whose content goes on, after a newline, with the
    line of the second; so two different conversations can reach the
    backend as the same prompt. *)
Theorem convert_messages_to_prompt_ambiguous
    (env : Env) (m m' : Message) (rest : list Message) :
  let merged := mkMessage (role m) (content m +:+ LF +:+ prompt_line env m') in
  convert_messages_to_prompt env (m :: m' :: rest)
  = convert_messages_to_prompt env (merged :: rest)
  /\ m :: m' :: rest <> merged :: rest.
Proof.
  intros merged. split.
  - rewrite !convert_messages_to_prompt_lines. cbn [map].
    rewrite join_cons. unfold merged, prompt_line at 1 4. cbn [role content].
    destruct rest as [|r rest].
    + cbn [map]. unfold join. cbn [String.concat].
      by rewrite !string_app_assoc.
    + cbn [map]. rewrite !join_cons. by rewrite !string_app_assoc.
  - intros Heq. apply (f_equal (@length Message)) in Heq. simpl in Heq. lia.
Qed.

(** ** The model list *)

(** X1: [list_models] changes nothing and lists one entry per key of
    [MODEL_ENDPOINTS]; a model name is listed exactly when
    [chat_completions] accepts it as a model. *)
Theorem list_models_lists_accepted_models (w : World) :
  exists models,
    list_models w
    = (inr (JSONResponse (VDict [("object", VStr "list"); ("data", VList models)])), w)
    /\ length models = length MODEL_ENDPOINTS
    /\ (forall name : string,
           In (VDict [("id", VStr name); ("object", VStr "model");
                      ("owned_by", VStr "postech")]) models
           <-> is_Some (endpoint_of (SStr name))).
Proof.
  eexists. split; [reflexivity|]. split; [reflexivity|].
  intros name. cbn [map MODEL_ENDPOINTS fst In endpoint_of table_lookup].
  destruct (String.eqb_spec "postech-gpt" name) as [<-|H1].
  { split; [eauto|]. intros _. by left. }
  destruct (String.eqb_spec "postech-gemini" name) as [<-|H2].
  { split; [eauto|]. intros _. right. by left. }
  destruct (String.eqb_spec "postech-claude" name) as [<-|H3].
  { split; [eauto|]. intros _. right. right. by left. }
  split.
  - intros [Heq|[Heq|[Heq|[]]]]; by simplify_eq.
  - by intros [? ?].
Qed.

(** ** Failures of the backend *)

Section BackendFailures.

Context (env : Env).

Lemma call_postech_api_error endpoint prompt files w e :
  backend_error (backend w (backend_call env endpoint prompt files)) = Some e ->
  fst (call_postech_api env endpoint prompt files w) = inl (RequestException e).
Proof.
  unfold backend_error, call_postech_api, requests_post, raise_for_status, response_json.
  unfold_monad.
  destruct (backend w _) as [info|status data]; simpl.
  { by intros [= <-]. }
  destruct ((400 <=? status) && (status <? 600)); simpl.
  { by intros [= <-]. }
  destruct data; simpl; [done|]. by intros [= <-].
Qed.

(** The call changes the log of requests and nothing else. *)
Lemma call_postech_api_world endpoint prompt files w :
  snd (call_postech_api env endpoint prompt files w)
  = mkWorld (stored_files w) (disk w) (entropy w) (drawn w) (clock w) (ticks w)
      (backend w) (sent w ++ [backend_call env endpoint prompt files]).
Proof.
  unfold call_postech_api, requests_post, raise_for_status, response_json.
  unfold_monad.
  destruct (backend w _) as [info|status data]; simpl; [done|].
  destruct ((400 <=? status) && (status <? 600)); simpl; [done|].
  destruct data as [data|]; simpl; [|done].
  by destruct (value_get data "replies" (VStr "")).
Qed.

(** X2: when the request is valid and the backend call fails inside
    [requests] (no response, a 4xx or 5xx status, or a body that is not
    JSON), the handler answers 502 with the text of the exception, after
    one logged backend request and without drawing a completion id or
    reading the clock. *)
Theorem backend_failure_gives_502
    request w name messages is_stream endpoint files w1 e :
  fst (parse_request env request w) = inr (VStr name, messages, is_stream) ->
  table_lookup name MODEL_ENDPOINTS = Some endpoint ->
  attach_file env request w = (inr files, w1) ->
  backend_error
    (backend w1 (backend_call env endpoint (convert_messages_to_prompt env messages)
                   (Some files))) = Some e ->
  fst (chat_completions env request w)
  = inl (HTTPException 502 ("POSTECH API error: " +:+ str_exn env (RequestException e)))
  /\ http_status (fst (chat_completions env request w)) = 502
  /\ sent (snd (chat_completions env request w))
     = sent w1 ++ [backend_call env endpoint (convert_messages_to_prompt env messages)
                     (Some files)]
  /\ drawn (snd (chat_completions env request w)) = drawn w1
  /\ ticks (snd (chat_completions env request w)) = ticks w1.
Proof.
  intros Hparse Hend Hfiles Herr.
  rewrite (chat_completions_known env request w _ _ _ (SStr name) endpoint files w1
             Hparse eq_refl Hend Hfiles).
  pose proof (call_postech_api_error _ _ _ _ _ Herr) as Hcall.
  pose proof (call_postech_api_world endpoint (convert_messages_to_prompt env messages)
                (Some files) w1) as Hworld.
  destruct (call_postech_api env endpoint _ (Some files) w1) as [r w2].
  simpl in Hcall, Hworld. subst r w2. done.
Qed.

(** X3: when the request is valid and the backend answers, outside
    400..599, with a JSON body that is not an object, the handler does not
    answer 502: the [AttributeError] of [data.get] is no exception of
    [requests] and leaves the handler (status 500). *)
Theorem non_object_reply_escapes
    request w name messages is_stream endpoint files w1 status data :
  fst (parse_request env request w) = inr (VStr name, messages, is_stream) ->
  table_lookup name MODEL_ENDPOINTS = Some endpoint ->
  attach_file env request w = (inr files, w1) ->
  backend w1 (backend_call env endpoint (convert_messages_to_prompt env messages)
                (Some files)) = Responded status (Some data) ->
  (400 <=? status) && (status <? 600) = false ->
  is_dict data = false ->
  fst (chat_completions env request w) = inl (AttributeError (type_name data) "get")
  /\ http_status (fst (chat_completions env request w)) = 500.
Proof.
  intros Hparse Hend Hfiles Hback Hstatus Hdata.
  rewrite (chat_completions_known env request w _ _ _ (SStr name) endpoint files w1
             Hparse eq_refl Hend Hfiles).
  assert (Hcall : fst (call_postech_api env endpoint
                         (convert_messages_to_prompt env messages) (Some files) w1)
                  = inl (AttributeError (type_name data) "get")).
  { unfold call_postech_api, requests_post, raise_for_status, response_json.
    unfold_monad. rewrite Hback. simpl. rewrite Hstatus. simpl.
    by destruct data. }
  destruct (call_postech_api env endpoint _ (Some files) w1) as [r w2].
  simpl in Hcall. subst r. done.
Qed.

End BackendFailures.

Lemma backend_failure_gives_502_witness :
  fst (parse_request sample_env hi_request down_world)
  = inr (VStr "postech-gpt", [mkMessage "user" "hi"], VBool false)
  /\ table_lookup "postech-gpt" MODEL_ENDPOINTS = Some "a1/gpt"
  /\ attach_file sample_env hi_request down_world = (inr [], down_world)
  /\ backend_error (backend down_world (backend_call sample_env "a1/gpt" "USER: hi" (Some [])))
     = Some (TransportError "connection refused")
  /\ fst (chat_completions sample_env hi_request down_world)
     = inl (HTTPException 502 "POSTECH API error: RequestException").
Proof.
  split; [reflexivity|]. split; [reflexivity|]. split; [reflexivity|].
  split; [reflexivity|].
  destruct (backend_failure_gives_502 sample_env hi_request down_world "postech-gpt"
              [mkMessage "user" "hi"] (VBool false) "a1/gpt" [] down_world
              (TransportError "connection refused"))
    as [Hrun _]; [reflexivity | reflexivity | reflexivity | reflexivity | exact Hrun].
Defined.

Lemma non_object_reply_escapes_witness :
  fst (parse_request sample_env hi_request array_world)
  = inr (VStr "postech-gpt", [mkMessage "user" "hi"], VBool false)
  /\ table_lookup "postech-gpt" MODEL_ENDPOINTS = Some "a1/gpt"
  /\ attach_file sample_env hi_request array_world = (inr [], array_world)
  /\ backend array_world (backend_call sample_env "a1/gpt" "USER: hi" (Some []))
     = Responded 200 (Some (VList []))
  /\ http_status (fst (chat_completions sample_env hi_request array_world)) = 500.
Proof.
  split; [reflexivity|]. split; [reflexivity|]. split; [reflexivity|].
  split; [reflexivity|].
  destruct (non_object_reply_escapes sample_env hi_request array_world "postech-gpt"
              [mkMessage "user" "hi"] (VBool false) "a1/gpt" [] array_world 200 (VList []))
    as [_ Hstatus];
    [reflexivity | reflexivity | reflexivity | reflexivity | reflexivity | reflexivity
    | exact Hstatus].
Defined.

(** ** Files *)

Lemma tmp_path_inj (a b : string) : tmp_path a = tmp_path b -> a = b.
Proof. unfold tmp_path, TMP_DIR. cbv [String.append]. congruence. Qed.

Lemma registry_ok_ext (w w' : World) :
  stored_files w' = stored_files w -> disk w' = disk w ->
  registry_ok w -> registry_ok w'.
Proof. unfold registry_ok. intros -> ->. done. Qed.

Lemma registry_ok_saved (file : UploadFile) (w : World) :
  registry_ok w -> registry_ok (saved_world file w).
Proof.
  intros Hok file_id record. unfold saved_world. cbn [stored_files disk].
  destruct (decide (next_file_id w = file_id)) as [<-|Hne].
  - rewrite lookup_insert_eq. intros [= <-]. cbn [sf_id sf_path].
    split; [done|]. split; [done|]. rewrite lookup_insert_eq. eauto.
  - rewrite lookup_insert_ne by done. intros Hlook.
    destruct (Hok file_id record Hlook) as (Hid & Hpath & Hdisk).
    split; [done|]. split; [done|].
    destruct (decide (tmp_path (next_file_id w) = sf_path record)) as [<-|Hp].
    + rewrite lookup_insert_eq. eauto.
    + by rewrite lookup_insert_ne.
Qed.

Section Files.

Context (env : Env).

Lemma upload_file_world file w : snd (upload_file env file w) = saved_world file w.
Proof.
  unfold upload_file, uuid4, write_file, register_file. unfold_monad. reflexivity.
Qed.

Lemma attach_file_attached request w file :
  attached request = Some file ->
  exists name,
    filename file = Some name /\ name <> ""
    /\ attach_file env request w
       = (inr [mkFileInfo (next_file_id w) name
                 (PROXY_HOST env +:+ "/files/" +:+ next_file_id w)],
          saved_world file w).
Proof.
  unfold attached, attach_file.
  destruct (form_file request) as [f|]; [|done].
  destruct (truthy (of_form (filename f))) eqn:Htruthy; [|done].
  intros [= ->].
  destruct (filename file) as [name|] eqn:Hname; [|done].
  simpl in Htruthy. apply negb_true_iff in Htruthy.
  exists name. split; [done|]. split; [by apply String.eqb_neq|].
  unfold save_uploaded_file, uuid4, write_file, register_file. unfold_monad.
  unfold saved_world, next_file_id. cbn. rewrite Hname, Htruthy. reflexivity.
Qed.

Lemma attach_file_none request w :
  attached request = None -> attach_file env request w = (inr [], w).
Proof.
  unfold attached, attach_file.
  destruct (form_file request) as [f|]; [|done].
  by destruct (truthy (of_form (filename f))).
Qed.

(** What a run of the handler leaves behind: nothing at all, or, for a
    request with a model of the table, the world of the file block plus
    one logged backend request; and then the answer is no 400. *)
Lemma chat_completions_effects request w :
  snd (chat_completions env request w) = w
  \/ exists name messages is_stream endpoint files w1,
       fst (parse_request env request w) = inr (VStr name, messages, is_stream)
       /\ table_lookup name MODEL_ENDPOINTS = Some endpoint
       /\ attach_file env request w = (inr files, w1)
       /\ stored_files (snd (chat_completions env request w)) = stored_files w1
       /\ disk (snd (chat_completions env request w)) = disk w1
       /\ sent (snd (chat_completions env request w))
          = sent w1 ++ [backend_call env endpoint (convert_messages_to_prompt env messages)
                          (Some files)]
       /\ http_status (fst (chat_completions env request w)) <> 400.
Proof.
  destruct (fst (parse_request env request w)) as [e|[[model messages] is_stream]] eqn:Hparse.
  { left. by rewrite (chat_completions_parse_error env request w e). }
  destruct (hash_key model) as [e|key] eqn:Hkey.
  { left. by rewrite (chat_completions_unhashable env request w model messages is_stream e). }
  destruct (endpoint_of key) as [endpoint|] eqn:Hend.
  2:{ left. by rewrite (chat_completions_unknown env request w model messages is_stream key). }
  destruct (attach_file_ok env request w) as (files & w1 & Hfiles & _).
  right.
  assert (Hname : exists name, model = VStr name /\ key = SStr name).
  { destruct model; simplify_eq/=; eauto; try done. }
  destruct Hname as (name & -> & ->).
  exists name, messages, is_stream, endpoint, files, w1.
  split; [done|]. split; [done|]. split; [done|].
  rewrite (chat_completions_known env request w _ _ _ _ _ _ _ Hparse Hkey Hend Hfiles).
  pose proof (call_postech_api_world env endpoint (convert_messages_to_prompt env messages)
                (Some files) w1) as Hworld.
  pose proof (call_postech_api_raises env endpoint (convert_messages_to_prompt env messages)
                (Some files) w1) as Hexn.
  destruct (call_postech_api env endpoint _ (Some files) w1) as [[e|reply] w2];
    simpl in Hworld; subst w2.
  - destruct (Hexn e eq_refl) as [Hreq|[ty ->]]; [rewrite Hreq|]; by simpl.
  - destruct (truthy is_stream); by simpl.
Qed.

(** X4: a file attached with a non-empty name to a request whose model is
    in the table is stored before the backend is called, whatever the
    backend then answers: the one backend request carries exactly one file
    reference (the new id, the file's name, and the url of that id under
    [PROXY_HOST]), and afterwards [get_file] at that id serves the bytes
    of the file under its name. *)
Theorem attached_file_is_forwarded_and_kept
    request w name messages is_stream endpoint file :
  fst (parse_request env request w) = inr (VStr name, messages, is_stream) ->
  table_lookup name MODEL_ENDPOINTS = Some endpoint ->
  attached request = Some file ->
  let file_id := next_file_id w in
  let w' := snd (chat_completions env request w) in
  exists file_name call,
    filename file = Some file_name
    /\ sent w' = sent w ++ [call]
    /\ call = backend_call env endpoint (convert_messages_to_prompt env messages)
                (Some [mkFileInfo file_id file_name
                         (PROXY_HOST env +:+ "/files/" +:+ file_id)])
    /\ field "files" (br_json call)
       = Some (VList [VDict [("id", VStr file_id); ("name", VStr file_name);
                             ("url", VStr (PROXY_HOST env +:+ "/files/" +:+ file_id))]])
    /\ get_file file_id w' = (inr (FileResponse (tmp_path file_id) (Some file_name)), w')
    /\ served_bytes (FileResponse (tmp_path file_id) (Some file_name)) w'
       = Some (file_bytes file).
Proof.
  intros Hparse Hend Hfile file_id w'.
  destruct (attach_file_attached request w file Hfile) as (file_name & Hname & _ & Hattach).
  exists file_name. eexists. split; [done|].
  destruct (chat_completions_effects request w) as [Hsame|Hrun].
  { exfalso.
    pose proof (chat_completions_known env request w _ _ _ (SStr name) endpoint _ _
                  Hparse eq_refl Hend Hattach) as Hknown.
    pose proof (call_postech_api_world env endpoint (convert_messages_to_prompt env messages)
                  (Some [mkFileInfo file_id file_name
                           (PROXY_HOST env +:+ "/files/" +:+ file_id)])
                  (saved_world file w)) as Hworld.
    fold file_id in Hknown.
    rewrite Hknown in Hsame.
    destruct (call_postech_api env endpoint _ _ (saved_world file w)) as [[e|reply] w2];
      simpl in Hworld; subst w2.
    - destruct (is_request_exception e); simpl in Hsame;
        apply (f_equal drawn) in Hsame; simpl in Hsame; lia.
    - destruct (truthy is_stream); simpl in Hsame;
        apply (f_equal drawn) in Hsame; simpl in Hsame; lia. }
  destruct Hrun as (name' & messages' & is_stream' & endpoint' & files & w1
                    & Hparse' & Hend' & Hattach' & Hstored & Hdisk & Hsent & _).
  rewrite Hparse in Hparse'. rewrite Hattach in Hattach'. simplify_eq.
  fold w' in Hstored, Hdisk, Hsent.
  split; [exact Hsent|]. split; [reflexivity|]. split; [reflexivity|].
  assert (Hlook : stored_files w' !! next_file_id w
                  = Some (mkStoredFile (next_file_id w) (filename file)
                            (tmp_path (next_file_id w)))).
  { rewrite Hstored. unfold saved_world. cbn [stored_files]. apply lookup_insert_eq. }
  split.
  - unfold get_file, find_file. unfold_monad. fold file_id in Hlook.
    rewrite Hlook. cbn [sf_path sf_name]. by rewrite Hname.
  - cbn [served_bytes]. rewrite Hdisk. unfold saved_world. cbn [disk].
    apply lookup_insert_eq.
Qed.

(** X5: a request that brings no file, or a file without a name, never
    changes the registry or the disk, and the backend request it leads to,
    if any, carries the empty list of files. *)
Theorem no_attachment_no_files request w :
  attached request = None ->
  stored_files (snd (chat_completions env request w)) = stored_files w
  /\ disk (snd (chat_completions env request w)) = disk w
  /\ (forall call,
         sent (snd (chat_completions env request w)) = sent w ++ [call] ->
         field "files" (br_json call) = Some (VList [])).
Proof.
  intros Hnone.
  destruct (chat_completions_effects request w) as [Hsame|Hrun].
  { rewrite Hsame. split; [done|]. split; [done|].
    intros call Hcall. apply (f_equal (@length BackendRequest)) in Hcall.
    rewrite length_app in Hcall. simpl in Hcall. lia. }
  destruct Hrun as (name & messages & is_stream & endpoint & files & w1
                    & _ & _ & Hattach & Hstored & Hdisk & Hsent & _).
  rewrite (attach_file_none request w Hnone) in Hattach. simplify_eq.
  split; [done|]. split; [done|].
  intros call Hcall. rewrite Hsent in Hcall.
  apply app_inv_head in Hcall. by simplify_eq.
Qed.

(** X11: a request that is answered with status 400 leaves the world as it
    was, and so does any run that posts nothing to the backend: no file is
    stored, no id drawn, unless the backend is called. *)
Theorem rejection_changes_nothing request w :
  (http_status (fst (chat_completions env request w)) = 400 ->
   snd (chat_completions env request w) = w)
  /\ (sent (snd (chat_completions env request w)) = sent w ->
      snd (chat_completions env request w) = w).
Proof.
  destruct (chat_completions_effects request w) as [Hsame|Hrun]; [done|].
  destruct Hrun as (name & messages & is_stream & endpoint & files & w1
                    & _ & _ & Hattach & _ & _ & Hsent & Hstatus).
  split; [done|].
  destruct (attach_file_ok env request w) as (files' & w1' & Hattach' & Hsent1 & _).
  rewrite Hattach in Hattach'. simplify_eq.
  rewrite Hsent, Hsent1. intros Heq.
  apply (f_equal (@length BackendRequest)) in Heq.
  rewrite length_app in Heq. simpl in Heq. lia.
Qed.

(** X12: the registry stays well formed under every handler (each entry
    under its own id, its file in the temporary directory, that file on
    the disk), it is well formed in a fresh process, and in a well-formed
    registry [get_file] serves bytes at every registered id. *)
Theorem registry_stays_well_formed :
  (forall answer, registry_ok (fresh_world answer))
  /\ (forall w,
         registry_ok w ->
         (forall file, registry_ok (snd (upload_file env file w)))
         /\ (forall request, registry_ok (snd (chat_completions env request w)))
         /\ (forall file_id, registry_ok (snd (get_file file_id w)))
         /\ registry_ok (snd (list_models w))
         /\ (forall file_id record,
                stored_files w !! file_id = Some record ->
                exists served bytes,
                  fst (get_file file_id w) = inr served
                  /\ served_bytes served w = Some bytes)).
Proof.
  split.
  { intros answer file_id record. unfold fresh_world. cbn [stored_files].
    by rewrite lookup_empty. }
  intros w Hok. split; [|split; [|split; [|split]]].
  - intros file. rewrite upload_file_world. by apply registry_ok_saved.
  - intros request.
    destruct (chat_completions_effects request w) as [Hsame|Hrun]; [by rewrite Hsame|].
    destruct Hrun as (name & messages & is_stream & endpoint & files & w1
                      & _ & _ & Hattach & Hstored & Hdisk & _).
    apply (registry_ok_ext w1); [done|done|].
    destruct (attached request) as [file|] eqn:Hfile.
    + destruct (attach_file_attached request w file Hfile) as (n & _ & _ & Hrun).
      rewrite Hrun in Hattach. simplify_eq. by apply registry_ok_saved.
    + rewrite (attach_file_none request w Hfile) in Hattach. by simplify_eq.
  - intros file_id. by rewrite get_file_pure.
  - done.
  - intros file_id record Hlook.
    destruct (Hok file_id record Hlook) as (_ & _ & [bytes Hbytes]).
    exists (FileResponse (sf_path record) (sf_name record)), bytes.
    unfold get_file, find_file. unfold_monad. by rewrite Hlook.
Qed.

(** X6: after two uploads in a row that drew different ids, each of the
    two files is served at its own id with its own bytes and name. *)
Theorem two_uploads_keep_both (first second : UploadFile) (w : World) :
  let w1 := snd (upload_file env first w) in
  let w2 := snd (upload_file env second w1) in
  next_file_id w <> next_file_id w1 ->
  get_file (next_file_id w) w2
  = (inr (FileResponse (tmp_path (next_file_id w)) (filename first)), w2)
  /\ served_bytes (FileResponse (tmp_path (next_file_id w)) (filename first)) w2
     = Some (file_bytes first)
  /\ get_file (next_file_id w1) w2
     = (inr (FileResponse (tmp_path (next_file_id w1)) (filename second)), w2)
  /\ served_bytes (FileResponse (tmp_path (next_file_id w1)) (filename second)) w2
     = Some (file_bytes second).
Proof.
  intros w1 w2 Hne. subst w2 w1. rewrite !upload_file_world in *.
  set (w1 := saved_world first w) in *.
  assert (Hpath : tmp_path (next_file_id w1) <> tmp_path (next_file_id w)).
  { intros Heq. apply tmp_path_inj in Heq. congruence. }
  repeat split.
  - unfold get_file, find_file. unfold_monad.
    unfold saved_world at 1. cbn [stored_files].
    rewrite lookup_insert_ne by congruence.
    unfold w1, saved_world at 1. cbn [stored_files]. by rewrite lookup_insert_eq.
  - cbn [served_bytes]. unfold saved_world at 1. cbn [disk].
    rewrite lookup_insert_ne by done.
    unfold w1, saved_world. cbn [disk]. apply lookup_insert_eq.
  - unfold get_file, find_file. unfold_monad.
    unfold saved_world at 1. cbn [stored_files]. by rewrite lookup_insert_eq.
  - cbn [served_bytes]. unfold saved_world at 1. cbn [disk]. apply lookup_insert_eq.
Qed.

End Files.

(** ** Parsing and routing of JSON requests *)

Lemma build_messages_objects (items : list value) (messages : list Message) :
  Forall2 is_message_object items messages ->
  build_messages (VList items) = inr messages.
Proof.
  unfold build_messages, iterate.
  induction 1 as [|item m items messages (d & -> & Hrole & Hcontent) _ IH]; [done|].
  cbn [for_each Message_unpack]. rewrite Hrole, Hcontent, IH. by destruct m.
Qed.

(** The exceptions of the comprehension over the messages answer 500. *)
Lemma build_messages_raises (v : value) (e : exn) :
  build_messages v = inl e -> http_status (@inl exn Response e) = 500.
Proof.
  unfold build_messages, iterate.
  assert (Hitems : forall items, for_each Message_unpack items = inl e ->
                                 http_status (@inl exn Response e) = 500).
  { induction items as [|x items IH]; [done|]. cbn [for_each].
    destruct (Message_unpack x) as [e'|m] eqn:Hx.
    - intros [= <-]. unfold Message_unpack in Hx.
      destruct x; simplify_eq/=; try done.
      repeat case_match; by simplify_eq.
    - destruct (for_each Message_unpack items); [|done].
      intros [= <-]. by apply IH. }
  destruct v; try (by intros [= <-]); apply Hitems.
Qed.

Section JsonRequests.

Context (env : Env).

Lemma parse_json_object request w d :
  json_loads env (body request) = Some (VDict d) ->
  fst (parse_json env request w)
  = match build_messages (dict_get d "messages" (VList [])) with
    | inl e => inl e
    | inr messages =>
        inr (dict_get d "model" (VStr DEFAULT_MODEL), messages,
             dict_get d "stream" (VBool false))
    end.
Proof.
  intros Hloads. unfold parse_json, loads. rewrite Hloads. unfold_monad. simpl.
  by destruct (build_messages _).
Qed.

(** X7: a JSON request whose body gives a model of the table and a list
    of message objects (each an object with a string [role] and a string
    [content], in any order and among any other keys) leads to exactly one
    backend request: to the url of [POSTECH_BASE_URL] followed by the
    endpoint of that model, with the API key header, a timeout of 120
    seconds, and as message the lines of the messages (the role
    uppercased by [str.upper], a colon and a space, the content), in
    order, joined by newlines. *)
Theorem json_request_is_routed request w d items messages name endpoint :
  is_multipart request = false ->
  json_loads env (body request) = Some (VDict d) ->
  field "messages" (VDict d) = Some (VList items) ->
  Forall2 is_message_object items messages ->
  field "model" (VDict d) = Some (VStr name) ->
  table_lookup name MODEL_ENDPOINTS = Some endpoint ->
  exists call,
    sent (snd (chat_completions env request w)) = sent w ++ [call]
    /\ br_url call = POSTECH_BASE_URL env +:+ "/" +:+ endpoint
    /\ field "message" (br_json call)
       = Some (VStr (join LF (map (fun m => str_upper env (role m) +:+ ": " +:+ content m)
                                messages)))
    /\ br_headers call = [("Content-Type", "application/json");
                          ("X-Api-Key", POSTECH_API_KEY env)]
    /\ br_timeout call = 120.
Proof.
  intros Hjson Hloads Hmessages Hitems Hmodel Hend.
  assert (Hparse : fst (parse_request env request w)
                   = inr (VStr name, messages, dict_get d "stream" (VBool false))).
  { unfold parse_request. rewrite Hjson, (parse_json_object request w d Hloads).
    unfold dict_get. simpl in Hmessages, Hmodel. rewrite Hmessages, Hmodel.
    by rewrite (build_messages_objects items messages Hitems). }
  destruct (attach_file_ok env request w) as (files & w1 & Hfiles & Hsent1 & _).
  pose proof (chat_completions_known env request w _ _ _ (SStr name) endpoint _ _
                Hparse eq_refl Hend Hfiles) as Hknown.
  pose proof (call_postech_api_sent env endpoint
                (convert_messages_to_prompt env messages) (Some files) w1) as Hcall.
  exists (backend_call env endpoint (convert_messages_to_prompt env messages) (Some files)).
  split.
  { rewrite Hknown.
    destruct (call_postech_api env endpoint _ (Some files) w1) as [[e|reply] w2];
      simpl in Hcall.
    - destruct (is_request_exception e); simpl; by rewrite Hcall, Hsent1.
    - destruct (truthy _); simpl; by rewrite Hcall, Hsent1. }
  split; [reflexivity|]. split; [|by split].
  cbn. by rewrite convert_messages_to_prompt_lines.
Qed.

(** X8: the default model.  In a multipart request an absent or empty
    [model] field resolves to [postech-gpt], so the model of a multipart
    request is never the empty string; in a JSON request only an absent
    key does, and the model is otherwise the value under the key, whatever
    it is; the default is a model of the table; and a JSON request whose
    model is the empty string or null is answered 400. *)
Theorem default_model_resolution :
  (forall request w model messages is_stream,
      is_multipart request = true ->
      fst (parse_request env request w) = inr (model, messages, is_stream) ->
      model = match form_model request with
              | Some name => if String.eqb name "" then VStr "postech-gpt" else VStr name
              | None => VStr "postech-gpt"
              end)
  /\ (forall request w d model messages is_stream,
         is_multipart request = false ->
         json_loads env (body request) = Some (VDict d) ->
         fst (parse_request env request w) = inr (model, messages, is_stream) ->
         model = match field "model" (VDict d) with
                 | Some v => v
                 | None => VStr "postech-gpt"
                 end)
  /\ endpoint_of (SStr "postech-gpt") = Some "a1/gpt"
  /\ (forall request w messages is_stream,
         fst (parse_request env request w) = inr (VStr "", messages, is_stream) ->
         fst (chat_completions env request w)
         = inl (HTTPException 400
                  "Invalid model: . Available: ['postech-gpt', 'postech-gemini', 'postech-claude']"))
  /\ (forall request w messages is_stream,
         fst (parse_request env request w) = inr (VNone, messages, is_stream) ->
         fst (chat_completions env request w)
         = inl (HTTPException 400
                  "Invalid model: None. Available: ['postech-gpt', 'postech-gemini', 'postech-claude']")).
Proof.
  split; [|split; [|split; [reflexivity|split]]].
  - intros request w model messages is_stream Hform Hparse.
    unfold parse_request in Hparse. rewrite Hform in Hparse.
    apply parse_form_flag in Hparse as [_ ->].
    destruct (form_model request) as [name|]; [|done].
    unfold py_or. simpl. by destruct (String.eqb name "").
  - intros request w d model messages is_stream Hjson Hloads Hparse.
    unfold parse_request in Hparse.
    rewrite Hjson, (parse_json_object request w d Hloads) in Hparse.
    destruct (build_messages _); [done|]. simplify_eq.
    unfold dict_get. simpl. by destruct (dict_lookup "model" d).
  - intros request w messages is_stream Hparse.
    by rewrite (chat_completions_unknown env request w (VStr "") messages is_stream
                  (SStr "")).
  - intros request w messages is_stream Hparse.
    by rewrite (chat_completions_unknown env request w VNone messages is_stream SNone).
Qed.

(** A response, read back: its shape follows the stream flag, its id is
    that of one draw, and the clock is read only for the completion
    object. *)
Lemma chat_completions_returns_id request w resp w' :
  chat_completions env request w = (inr resp, w') ->
  exists model messages is_stream reply u created,
    fst (parse_request env request w) = inr (model, messages, is_stream)
    /\ resp = (if truthy is_stream
               then StreamingResponse reply model (completion_id_of u) "text/event-stream"
                      [("Cache-Control", "no-cache"); ("Connection", "keep-alive")]
               else JSONResponse (completion (completion_id_of u) created model reply))
    /\ ticks w' = if truthy is_stream then ticks w else S (ticks w).
Proof.
  destruct (fst (parse_request env request w)) as [e|[[model messages] is_stream]] eqn:Hparse.
  { by rewrite (chat_completions_parse_error env request w e). }
  destruct (hash_key model) as [e|key] eqn:Hkey.
  { by rewrite (chat_completions_unhashable env request w model messages is_stream e). }
  destruct (endpoint_of key) as [endpoint|] eqn:Hend.
  2:{ by rewrite (chat_completions_unknown env request w model messages is_stream key). }
  destruct (attach_file_ok env request w) as (files & w1 & Hfiles & _ & _ & _ & Hticks).
  rewrite (chat_completions_known env request w _ _ _ _ _ _ _ Hparse Hkey Hend Hfiles).
  pose proof (call_postech_api_world env endpoint (convert_messages_to_prompt env messages)
                (Some files) w1) as Hworld.
  destruct (call_postech_api env endpoint _ (Some files) w1) as [[e|reply] w2];
    simpl in Hworld; subst w2.
  { by destruct (is_request_exception e). }
  cbn zeta. intros Hret.
  exists model, messages, is_stream, reply. eexists _, _.
  split; [done|].
  destruct (truthy is_stream); simplify_eq; cbn; by rewrite Hticks.
Qed.

(** X9: the response to a JSON request is the [StreamingResponse] exactly
    when the value under [stream] in the body (false when absent) is true
    in Python's sense, so also for a number that is not zero or for any
    non-empty string, the string [false] included; the streaming response
    has the event-stream media type, the two cache headers, an id made of
    [chatcmpl-] and twelve hexadecimal characters, and is returned without
    reading the clock. *)
Theorem json_stream_flag :
  (forall request w d resp w',
      is_multipart request = false ->
      json_loads env (body request) = Some (VDict d) ->
      chat_completions env request w = (inr resp, w') ->
      is_streaming resp = truthy (dict_get d "stream" (VBool false))
      /\ (is_streaming resp = true ->
          exists reply model suffix,
            resp = StreamingResponse reply model ("chatcmpl-" +:+ suffix)
                     "text/event-stream"
                     [("Cache-Control", "no-cache"); ("Connection", "keep-alive")]
            /\ String.length suffix = 12%nat
            /\ all_chars is_hex_char suffix = true
            /\ ticks w' = ticks w))
  /\ truthy (VBool true) = true
  /\ truthy (VInt 1) = true
  /\ truthy (VStr "false") = true
  /\ truthy (VBool false) = false
  /\ truthy (VInt 0) = false
  /\ truthy VNone = false
  /\ truthy (VStr "") = false.
Proof.
  split; [|by repeat split].
  intros request w d resp w' Hjson Hloads Hret.
  destruct (chat_completions_returns_id request w resp w' Hret)
    as (model & messages & is_stream & reply & u & created & Hparse & -> & Hticks).
  unfold parse_request in Hparse.
  rewrite Hjson, (parse_json_object request w d Hloads) in Hparse.
  destruct (build_messages _); [done|]. simplify_eq.
  destruct (truthy (dict_get d "stream" (VBool false))); simpl; [|done].
  split; [done|]. intros _.
  destruct (completion_id_of_form u) as (suffix & Hid & Hlen & Hhex).
  exists reply, (dict_get d "model" (VStr DEFAULT_MODEL)), suffix.
  by rewrite Hid.
Qed.

(** X10: the JSON branch turns no error of the body into a 400.  A body
    that is not JSON, a body that is JSON but no object, a [messages]
    value that the comprehension cannot turn into messages, and a model
    that is a list or an object each end the handler with the exception
    itself (status 500), the world unchanged. *)
Theorem json_body_errors_escape request w :
  is_multipart request = false ->
  (json_loads env (body request) = None ->
   chat_completions env request w = (inl (JSONDecodeError (body request)), w))
  /\ (forall v,
         json_loads env (body request) = Some v -> is_dict v = false ->
         chat_completions env request w = (inl (AttributeError (type_name v) "get"), w))
  /\ (forall d e,
         json_loads env (body request) = Some (VDict d) ->
         build_messages (dict_get d "messages" (VList [])) = inl e ->
         chat_completions env request w = (inl e, w)
         /\ http_status (fst (chat_completions env request w)) = 500)
  /\ (forall d messages e,
         json_loads env (body request) = Some (VDict d) ->
         build_messages (dict_get d "messages" (VList [])) = inr messages ->
         hash_key (dict_get d "model" (VStr DEFAULT_MODEL)) = inl e ->
         chat_completions env request w = (inl e, w)
         /\ e = TypeError (Unhashable (type_name (dict_get d "model" (VStr DEFAULT_MODEL))))
         /\ http_status (fst (chat_completions env request w)) = 500).
Proof.
  intros Hjson. split; [|split; [|split]].
  - intros Hloads. apply chat_completions_parse_error.
    unfold parse_request, parse_json, loads. rewrite Hjson, Hloads. by unfold_monad.
  - intros v Hloads Hdict. apply chat_completions_parse_error.
    unfold parse_request, parse_json, loads. rewrite Hjson, Hloads. unfold_monad.
    simpl. by destruct v.
  - intros d e Hloads Hbuild.
    assert (Hrun : chat_completions env request w = (inl e, w)).
    { apply chat_completions_parse_error.
      unfold parse_request. rewrite Hjson, (parse_json_object request w d Hloads).
      by rewrite Hbuild. }
    split; [done|]. rewrite Hrun. by apply (build_messages_raises _ _ Hbuild).
  - intros d messages e Hloads Hbuild Hkey.
    assert (He : e = TypeError (Unhashable
                                  (type_name (dict_get d "model" (VStr DEFAULT_MODEL))))).
    { destruct (dict_get d "model" (VStr DEFAULT_MODEL)); by simplify_eq/=. }
    assert (Hrun : chat_completions env request w = (inl e, w)).
    { apply (chat_completions_unhashable env request w
               (dict_get d "model" (VStr DEFAULT_MODEL)) messages
               (dict_get d "stream" (VBool false))); [|done].
      unfold parse_request. rewrite Hjson, (parse_json_object request w d Hloads).
      by rewrite Hbuild. }
    split; [done|]. split; [done|]. rewrite Hrun. by subst e.
Qed.

End JsonRequests.

(** ** The further statements on the sample requests *)

Lemma attached_file_is_forwarded_and_kept_witness :
  fst (parse_request sample_env notes_form replies_world)
  = inr (VStr "postech-gemini", [mkMessage "user" "hi"], VNone)
  /\ table_lookup "postech-gemini" MODEL_ENDPOINTS = Some "a2/gemini"
  /\ attached notes_form = Some notes_file
  /\ exists file_name,
       filename notes_file = Some file_name
       /\ served_bytes (FileResponse (tmp_path (next_file_id replies_world)) (Some file_name))
            (snd (chat_completions sample_env notes_form replies_world))
          = Some (file_bytes notes_file).
Proof.
  split; [reflexivity|]. split; [reflexivity|]. split; [reflexivity|].
  destruct (attached_file_is_forwarded_and_kept sample_env notes_form replies_world
              "postech-gemini" [mkMessage "user" "hi"] VNone "a2/gemini" notes_file)
    as (file_name & call & Hname & _ & _ & _ & _ & Hserved);
    [reflexivity | reflexivity | reflexivity |].
  exists file_name. split; [exact Hname | exact Hserved].
Defined.

Lemma no_attachment_no_files_witness :
  attached hi_request = None
  /\ stored_files (snd (chat_completions sample_env hi_request replies_world))
     = stored_files replies_world
  /\ disk (snd (chat_completions sample_env hi_request replies_world))
     = disk replies_world.
Proof.
  split; [reflexivity|].
  destruct (no_attachment_no_files sample_env hi_request replies_world)
    as (Hstored & Hdisk & _); [reflexivity|].
  split; [exact Hstored | exact Hdisk].
Defined.

Lemma rejection_changes_nothing_witness :
  http_status (fst (chat_completions sample_env nope_request replies_world)) = 400
  /\ snd (chat_completions sample_env nope_request replies_world) = replies_world.
Proof.
  split; [reflexivity|].
  apply (proj1 (rejection_changes_nothing sample_env nope_request replies_world)).
  reflexivity.
Defined.

Lemma registry_stays_well_formed_witness :
  registry_ok replies_world
  /\ registry_ok (snd (upload_file sample_env notes_file replies_world))
  /\ registry_ok (snd (chat_completions sample_env notes_form replies_world)).
Proof.
  destruct (registry_stays_well_formed sample_env) as [Hfresh Hkeep].
  pose proof (Hfresh (Responded 200 (Some (VDict [("replies", VStr "hello")])))) as Hok.
  destruct (Hkeep _ Hok) as (Hupload & Hchat & _).
  split; [exact Hok|]. split; [apply Hupload | apply Hchat].
Defined.

Lemma two_uploads_keep_both_witness :
  next_file_id replies_world
  <> next_file_id (snd (upload_file sample_env notes_file replies_world))
  /\ served_bytes
       (FileResponse (tmp_path (next_file_id replies_world)) (filename notes_file))
       (snd (upload_file sample_env other_file
               (snd (upload_file sample_env notes_file replies_world))))
     = Some (file_bytes notes_file).
Proof.
  assert (Hne : next_file_id replies_world
                <> next_file_id (snd (upload_file sample_env notes_file replies_world))).
  { apply String.eqb_neq. vm_compute. reflexivity. }
  split; [exact Hne|].
  destruct (two_uploads_keep_both sample_env notes_file other_file replies_world Hne)
    as (_ & Hserved & _).
  exact Hserved.
Defined.

Lemma json_request_is_routed_witness :
  is_multipart (json_request named_body) = false
  /\ json_loads more_env named_body = Some named_body_value
  /\ field "messages" named_body_value = Some (VList [named_message])
  /\ Forall2 is_message_object [named_message] [mkMessage "user" "hi"]
  /\ field "model" named_body_value = Some (VStr "postech-gemini")
  /\ table_lookup "postech-gemini" MODEL_ENDPOINTS = Some "a2/gemini"
  /\ exists call,
       sent (snd (chat_completions more_env (json_request named_body) replies_world))
       = sent replies_world ++ [call]
       /\ br_url call = "https://genai.postech.ac.kr/agent/api/a2/gemini"
       /\ field "message" (br_json call) = Some (VStr "USER: hi").
Proof.
  assert (Hitems : Forall2 is_message_object [named_message] [mkMessage "user" "hi"]).
  { repeat constructor. eexists. repeat split; reflexivity. }
  split; [reflexivity|]. split; [reflexivity|]. split; [reflexivity|].
  split; [exact Hitems|]. split; [reflexivity|]. split; [reflexivity|].
  destruct (json_request_is_routed more_env (json_request named_body) replies_world
              [("messages", VList [named_message]); ("model", VStr "postech-gemini")]
              [named_message] [mkMessage "user" "hi"] "postech-gemini" "a2/gemini")
    as (call & Hsent & Hurl & Hmessage & _);
    [reflexivity | reflexivity | reflexivity | exact Hitems | reflexivity | reflexivity |].
  exists call. split; [exact Hsent|]. split; [exact Hurl | exact Hmessage].
Defined.

Lemma default_model_resolution_witness :
  fst (parse_request more_env (json_request empty_model_body) replies_world)
  = inr (VStr "", [], VBool false)
  /\ fst (chat_completions more_env (json_request empty_model_body) replies_world)
     = inl (HTTPException 400
              "Invalid model: . Available: ['postech-gpt', 'postech-gemini', 'postech-claude']").
Proof.
  split; [reflexivity|].
  destruct (default_model_resolution more_env) as (_ & _ & _ & Hempty & _).
  apply (Hempty (json_request empty_model_body) replies_world [] (VBool false)).
  reflexivity.
Defined.

Lemma json_stream_flag_witness :
  is_multipart (json_request stream_false_text_body) = false
  /\ json_loads more_env stream_false_text_body
     = Some (VDict [("messages", hi_messages); ("stream", VStr "false")])
  /\ is_streaming
       (StreamingResponse (VStr "hello") (VStr "postech-gpt") "chatcmpl-0123456789ab"
          "text/event-stream"
          [("Cache-Control", "no-cache"); ("Connection", "keep-alive")])
     = truthy (VStr "false").
Proof.
  split; [reflexivity|]. split; [reflexivity|].
  destruct (proj1 (json_stream_flag more_env)
              (json_request stream_false_text_body) replies_world
              [("messages", hi_messages); ("stream", VStr "false")]
              (StreamingResponse (VStr "hello") (VStr "postech-gpt")
                 "chatcmpl-0123456789ab" "text/event-stream"
                 [("Cache-Control", "no-cache"); ("Connection", "keep-alive")])
              (snd (chat_completions more_env (json_request stream_false_text_body)
                      replies_world)))
    as [Hflag _]; [reflexivity | reflexivity | reflexivity | exact Hflag].
Defined.

Lemma json_body_errors_escape_witness :
  is_multipart (json_request list_body) = false
  /\ json_loads more_env list_body = Some (VList [])
  /\ chat_completions more_env (json_request list_body) replies_world
     = (inl (AttributeError "list" "get"), replies_world).
Proof.
  split; [reflexivity|]. split; [reflexivity|].
  destruct (json_body_errors_escape more_env (json_request list_body) replies_world)
    as (_ & Hobject & _); [reflexivity|].
  apply (Hobject (VList [])); reflexivity.
Defined.

(** ** Multipart requests and stored attachments *)

Lemma substring_length (n m : nat) (s : string) :
  (n + m <= String.length s)%nat -> String.length (substring n m s) = m.
Proof.
  revert s. induction n as [|n IH]; intros s Hlen.
  - by apply substring_prefix_length.
  - destruct s as [|c s]; simpl in *; [lia|]. apply IH. lia.
Qed.

(** [str(uuid)] has 36 characters. *)
Lemma uuid_str_length (u : Z) : String.length (uuid_str u) = 36%nat.
Proof.
  unfold uuid_str, uuid_hex.
  rewrite !length_append, !substring_length by (rewrite hex_digits_length; lia).
  reflexivity.
Qed.

Section FormRequests.

Context (env : Env).

Lemma parsed_request_is_routed request w name messages is_stream endpoint :
  fst (parse_request env request w) = inr (VStr name, messages, is_stream) ->
  table_lookup name MODEL_ENDPOINTS = Some endpoint ->
  exists files,
    sent (snd (chat_completions env request w))
    = sent w ++ [backend_call env endpoint (convert_messages_to_prompt env messages)
                   (Some files)].
Proof.
  intros Hparse Hend.
  destruct (attach_file_ok env request w) as (files & w1 & Hfiles & Hsent1 & _).
  exists files.
  rewrite (chat_completions_known env request w _ _ _ (SStr name) endpoint _ _
             Hparse eq_refl Hend Hfiles).
  pose proof (call_postech_api_sent env endpoint
                (convert_messages_to_prompt env messages) (Some files) w1) as Hcall.
  destruct (call_postech_api env endpoint _ (Some files) w1) as [[e|reply] w2];
    simpl in Hcall.
  - destruct (is_request_exception e); simpl; by rewrite Hcall, Hsent1.
  - destruct (truthy _); simpl; by rewrite Hcall, Hsent1.
Qed.

(** X15: a multipart request whose [messages] text decodes to a list of
    message objects (each an object with a string [role] and a string
    [content], in any order and among any other keys), and whose [model]
    field (the default when the field is absent or empty) is a model of
    the table, leads to exactly one backend request: to the endpoint of
    that model, with the lines of the messages (the role uppercased by
    [str.upper], a colon and a space, the content), in order, joined by
    newlines, as message. *)
Theorem form_request_is_routed request w text items messages endpoint :
  is_multipart request = true ->
  form_messages request = Some text ->
  text <> "" ->
  json_loads env text = Some (VList items) ->
  Forall2 is_message_object items messages ->
  table_lookup
    (match form_model request with
     | Some name => if String.eqb name "" then DEFAULT_MODEL else name
     | None => DEFAULT_MODEL
     end) MODEL_ENDPOINTS = Some endpoint ->
  exists call,
    sent (snd (chat_completions env request w)) = sent w ++ [call]
    /\ br_url call = POSTECH_BASE_URL env +:+ "/" +:+ endpoint
    /\ field "message" (br_json call)
       = Some (VStr (join LF (map (fun m => str_upper env (role m) +:+ ": " +:+ content m)
                                messages)))
    /\ field "stream" (br_json call) = Some (VBool false).
Proof.
  intros Hform Htext Hne Hloads Hitems Hend.
  set (name := match form_model request with
               | Some name => if String.eqb name "" then DEFAULT_MODEL else name
               | None => DEFAULT_MODEL
               end) in *.
  assert (Hparse : fst (parse_request env request w)
                   = inr (VStr name, messages, stream_flag (form_stream request))).
  { unfold parse_request, parse_form, loads. rewrite Hform, Htext. simpl.
    apply String.eqb_neq in Hne. rewrite Hne. simpl.
    unfold_monad. rewrite Hloads. simpl.
    rewrite (build_messages_objects items messages Hitems). simpl.
    unfold name, py_or. destruct (form_model request) as [n|]; [|done].
    simpl. by destruct (String.eqb n ""). }
  destruct (parsed_request_is_routed request w name messages _ endpoint Hparse Hend)
    as (files & Hsent).
  eexists. split; [exact Hsent|]. split; [reflexivity|]. split; [|reflexivity].
  cbn. by rewrite convert_messages_to_prompt_lines.
Qed.

(** X16: [save_uploaded_file] draws one id from [uuid.uuid4()], a string
    of 36 characters, writes the bytes to the file of that id in the
    temporary directory, and sets the registry entry of that id (an entry
    already under it is replaced); the reference it returns has that id,
    the url [PROXY_HOST], [/files/] and the id, and as name the upload's
    filename, or [file] when that is absent or empty, so never empty; and
    [get_file] at the id then serves the bytes, under the filename as
    uploaded (absent when it was absent). *)
Theorem save_uploaded_file_round_trip (file : UploadFile) (w : World) :
  exists info w1,
    save_uploaded_file env file w = (inr info, w1)
    /\ fi_id info = uuid_str (entropy w (drawn w) mod 2 ^ 128)
    /\ String.length (fi_id info) = 36%nat
    /\ drawn w1 = S (drawn w)
    /\ stored_files w1
       = <[fi_id info := mkStoredFile (fi_id info) (filename file) (tmp_path (fi_id info))]>
           (stored_files w)
    /\ disk w1 = <[tmp_path (fi_id info) := file_bytes file]> (disk w)
    /\ fi_url info = PROXY_HOST env +:+ "/files/" +:+ fi_id info
    /\ fi_name info <> ""
    /\ (forall name, filename file = Some name -> name <> "" -> fi_name info = name)
    /\ (filename file = None \/ filename file = Some "" -> fi_name info = "file")
    /\ get_file (fi_id info) w1
       = (inr (FileResponse (tmp_path (fi_id info)) (filename file)), w1)
    /\ served_bytes (FileResponse (tmp_path (fi_id info)) (filename file)) w1
       = Some (file_bytes file).
Proof.
  eexists _, _. split.
  { unfold save_uploaded_file, uuid4, write_file, register_file. unfold_monad.
    cbn. reflexivity. }
  cbn [fi_url fi_id fi_name].
  split; [reflexivity|]. split; [apply uuid_str_length|].
  split; [reflexivity|]. split; [reflexivity|]. split; [reflexivity|].
  split; [reflexivity|]. split; [|split; [|split; [|split]]].
  - destruct (filename file) as [name|]; [|done].
    destruct (String.eqb_spec name ""); done.
  - intros name -> Hne. apply String.eqb_neq in Hne. by rewrite Hne.
  - by intros [-> | ->].
  - unfold get_file, find_file. unfold_monad. cbn.
    by rewrite lookup_insert_eq.
  - cbn. apply lookup_insert_eq.
Qed.

End FormRequests.

Lemma form_request_is_routed_witness :
  is_multipart (form_request None (Some named_messages_text) None None) = true
  /\ named_messages_text <> ""
  /\ json_loads more_env named_messages_text = Some (VList [named_message])
  /\ Forall2 is_message_object [named_message] [mkMessage "user" "hi"]
  /\ table_lookup DEFAULT_MODEL MODEL_ENDPOINTS = Some "a1/gpt"
  /\ exists call,
       sent (snd (chat_completions more_env
                    (form_request None (Some named_messages_text) None None)
                    replies_world))
       = sent replies_world ++ [call]
       /\ br_url call = "https://genai.postech.ac.kr/agent/api/a1/gpt"
       /\ field "message" (br_json call) = Some (VStr "USER: hi").
Proof.
  assert (Hitems : Forall2 is_message_object [named_message] [mkMessage "user" "hi"]).
  { repeat constructor. eexists. repeat split; reflexivity. }
  split; [reflexivity|]. split; [discriminate|]. split; [reflexivity|].
  split; [exact Hitems|]. split; [reflexivity|].
  destruct (form_request_is_routed more_env
              (form_request None (Some named_messages_text) None None) replies_world
              named_messages_text [named_message] [mkMessage "user" "hi"] "a1/gpt")
    as (call & Hsent & Hurl & Hmessage & _);
    [reflexivity | reflexivity | discriminate | reflexivity | exact Hitems | reflexivity |].
  exists call. split; [exact Hsent|]. split; [exact Hurl | exact Hmessage].
Defined.

Lemma save_uploaded_file_round_trip_witness :
  filename (mkUploadFile None [Byte.x2a]) = None
  /\ exists info,
       fst (save_uploaded_file sample_env (mkUploadFile None [Byte.x2a]) replies_world)
       = inr info
       /\ fi_id info = "01234567-89ab-cdef-0123-456789abcdef"
       /\ fi_name info = "file".
Proof.
  split; [reflexivity|].
  destruct (save_uploaded_file_round_trip sample_env (mkUploadFile None [Byte.x2a])
              replies_world)
    as (info & w1 & Hrun & Hid & _ & _ & _ & _ & _ & _ & _ & Hdefault & _).
  exists info. rewrite Hrun. split; [reflexivity|].
  split; [rewrite Hid; reflexivity|]. apply Hdefault. by left.
Defined.

(** C9 fails on the code.  The JSON request whose body gives a list as
    model and no [messages] has a model that is no key of
    [MODEL_ENDPOINTS], and is not rejected with a client error: the test
    [model not in MODEL_ENDPOINTS] hashes the model, a list cannot be
    hashed, and the [TypeError] leaves the handler (status 500), before
    the 400 that the test guards.  Nothing is sent to the backend. *)
Theorem unhashable_model_not_rejected :
  is_multipart (json_request list_model_body) = false
  /\ json_loads more_env list_model_body = Some (VDict [("model", VList [])])
  /\ field "messages" (VDict [("model", VList [])]) = None
  /\ fst (parse_request more_env (json_request list_model_body) replies_world)
     = inr (VList [], [], VBool false)
  /\ chat_completions more_env (json_request list_model_body) replies_world
     = (inl (TypeError (Unhashable "list")), replies_world)
  /\ http_status
       (fst (chat_completions more_env (json_request list_model_body) replies_world))
     = 500.
Proof. repeat split; vm_compute; reflexivity. Qed.
